(** * zarcaro-pay: the Flask payment gateway of [app.py]

    A shallow embedding of the request handlers registered by [create_app]:
    every handler is a computation in a small state-and-exception monad over
    a [World] (the Firestore collections the handlers touch and the ordered
    log of calls made to external services).  The vendor SDKs and the
    identity provider are not part of the repository; they enter as the
    fields of an [Env] record, one function per SDK entry point, so that
    every statement below holds for whatever those services answer. *)

From Stdlib Require Import ZArith Ascii.
From stdpp Require Import base option list gmap strings sorting.

Local Set Warnings "-register-all".
Local Open Scope Z_scope.

(** ** Python values *)

(** A Python [float]: a finite double is the dyadic rational [m * 2^e]. *)
Inductive pyfloat :=
| FFinite (m e : Z)
| FInf (negative : bool)
| FNan.

(** The values that flow through the handlers: what [json.loads] produces,
    plus the [datetime] Firestore returns for a timestamp field.  A [dict]
    keeps its keys in insertion order, each key once. *)
Inductive value :=
| VNone
| VBool (b : bool)
| VInt (z : Z)
| VFloat (f : pyfloat)
| VStr (s : string)
| VList (l : list value)
| VDict (d : list (string * value))
| VTimestamp (t : Z).

Abbreviation dict := (list (string * value)).

(** An exception: its class and [str(exc)]. *)
Inductive exn := Exn (cls msg : string).

Definition str_exc (e : exn) : string := let 'Exn _ m := e in m.

Inductive result (A : Type) :=
| Ok (a : A)
| Raise (e : exn).
Arguments Ok {A} a.
Arguments Raise {A} e.

(** [bool(v)], as used by [not v], [v or d] and [all([...])]. *)
Definition truthy (v : value) : bool :=
  match v with
  | VNone => false
  | VBool b => b
  | VInt z => negb (z =? 0)
  | VFloat (FFinite m _) => negb (m =? 0)
  | VFloat _ => true
  | VStr s => negb (String.eqb s "")
  | VList l => match l with [] => false | _ => true end
  | VDict d => match d with [] => false | _ => true end
  | VTimestamp _ => true
  end.

(** [bool(s)] for an optional string ([os.getenv], [headers.get]). *)
Definition truthy_str (o : option string) : bool :=
  match o with
  | Some s => negb (String.eqb s "")
  | None => false
  end.

(** [all(vs)] *)
Definition py_all (vs : list value) : bool := forallb truthy vs.

(** [v == "s"] for a string literal on the right. *)
Definition eq_str (v : value) (s : string) : bool :=
  match v with
  | VStr s' => String.eqb s' s
  | _ => false
  end.

(** *** Dictionaries *)

Fixpoint dict_lookup (k : string) (d : dict) : option value :=
  match d with
  | [] => None
  | (k', v) :: d' => if String.eqb k' k then Some v else dict_lookup k d'
  end.

(** [d[k] = v] *)
Fixpoint dict_set (k : string) (v : value) (d : dict) : dict :=
  match d with
  | [] => [(k, v)]
  | (k', v') :: d' =>
      if String.eqb k' k then (k, v) :: d' else (k', v') :: dict_set k v d'
  end.

(** [x.get(k, default)]: only a mapping has the method. *)
Definition py_get (x : value) (k : string) (dflt : value) : result value :=
  match x with
  | VDict d => Ok (from_option id dflt (dict_lookup k d))
  | _ => Raise (Exn "AttributeError" "object has no attribute 'get'")
  end.

(** [x[k]] for a string key [k]. *)
Definition py_getitem (x : value) (k : string) : result value :=
  match x with
  | VDict d =>
      match dict_lookup k d with
      | Some v => Ok v
      | None => Raise (Exn "KeyError" k)
      end
  | _ => Raise (Exn "TypeError" "indices must be integers or object is not subscriptable")
  end.

(** *** [int(x)] *)

(** The white space [int] skips around an ASCII literal: tab, line feed,
    vertical tab, form feed, carriage return and space. *)
Definition is_space (c : ascii) : bool :=
  let n := N_of_ascii c in
  ((9 <=? n) && (n <=? 13) || (n =? 32))%N.

Definition digit_of (c : ascii) : option Z :=
  let n := N_of_ascii c in
  if ((48 <=? n) && (n <=? 57))%N then Some (Z.of_N n - 48) else None.

Fixpoint lstrip (s : string) : string :=
  match s with
  | String c s' => if is_space c then lstrip s' else s
  | EmptyString => s
  end.

Definition strip (s : string) : string :=
  String.rev (lstrip (String.rev (lstrip s))).

(** Decimal digits, single underscores allowed between two digits. *)
Fixpoint digits_go (acc : Z) (after_digit : bool) (s : string) : option Z :=
  match s with
  | EmptyString => if after_digit then Some acc else None
  | String c s' =>
      match digit_of c with
      | Some d => digits_go (10 * acc + d) true s'
      | None =>
          if Ascii.eqb c "_" && after_digit then digits_go acc false s' else None
      end
  end.

(** [int(s)] on an ASCII string: surrounding white space, an optional sign,
    then the digits. *)
Definition int_of_str (s : string) : option Z :=
  match strip s with
  | String "-" s' => Z.opp <$> digits_go 0 false s'
  | String "+" s' => digits_go 0 false s'
  | s' => digits_go 0 false s'
  end.

Fixpoint is_ascii (s : string) : bool :=
  match s with
  | EmptyString => true
  | String c s' => (N_of_ascii c <? 128)%N && is_ascii s'
  end.

(** The strings on which [int_of_str] is the interpreter's [int]: ASCII
    only (no Unicode digits or white space to convert) and short enough to
    stay below any cap on the number of digits. *)
Definition plain_literal (s : string) : bool :=
  is_ascii s && (String.length s <=? 4300)%nat.

(** [int(v)].  On a string that is not a [plain_literal], [int] is the
    interpreter's own, taken as the parameter [int_str]. *)
Definition py_int (int_str : string -> result Z) (v : value) : result Z :=
  match v with
  | VInt z => Ok z
  | VBool b => Ok (if b then 1 else 0)
  | VFloat (FFinite m e) =>
      Ok (if 0 <=? e then m * 2 ^ e else Z.quot m (2 ^ (- e)))
  | VFloat (FInf _) =>
      Raise (Exn "OverflowError" "cannot convert float infinity to integer")
  | VFloat FNan =>
      Raise (Exn "ValueError" "cannot convert float NaN to integer")
  | VStr s =>
      if plain_literal s then
        match int_of_str s with
        | Some z => Ok z
        | None => Raise (Exn "ValueError" "invalid literal for int() with base 10")
        end
      else int_str s
  | _ => Raise (Exn "TypeError" "int() argument must be a string, a bytes-like object or a real number")
  end.

(** *** [s.split(" ")] *)

Fixpoint split_go (cur : string) (s : string) : list string :=
  match s with
  | EmptyString => [String.rev cur]
  | String c s' =>
      if Ascii.eqb c " " then String.rev cur :: split_go "" s'
      else split_go (String c cur) s'
  end.

Definition split_space (s : string) : list string := split_go "" s.

(** ** The document store and the outside world *)

(** One document of [users/{uid}/transactions], as [stripe_webhook] writes
    it; [timestamp] is the commit time the store puts in place of
    [firestore.SERVER_TIMESTAMP]. *)
Record Transaction := {
  amount : value;
  currency : value;
  payment_intent : value;
  status : value;
  timestamp : Z;
}.

(** One document of [contact_messages]. *)
Record ContactMessage := {
  name : value;
  email : value;
  message : value;
  contact_timestamp : Z;
}.

(** The Firestore collections the handlers use, each a map from document
    id to document. *)
Record Store := {
  users : gmap string dict;
  transactions : gmap string (gmap string Transaction);
  contact_messages : gmap string ContactMessage;
}.

(** [firestore.Query.ASCENDING], [firestore.Query.DESCENDING] *)
Inductive direction := ASCENDING | DESCENDING.

(** A call that leaves the process, in the order the handlers make them. *)
Inductive effect :=
| VerifyIdToken (id_token : string)
| UsersGet (uid : string)
| UsersSetMerge (uid : string) (fields : dict)
| TransactionsAdd (uid doc_id : string) (tx : Transaction)
| TransactionsQuery (uid field : string) (dir : direction)
| ContactMessagesAdd (doc_id : string) (msg : ContactMessage)
| StripeSessionCreate (kwargs : dict)
| StripeConstructEvent (payload : string) (sig_header : option string)
                       (secret : string)
| StripeConstructFrom (values : value)
| PlaidLinkTokenCreate (request_body : value)
| PlaidExchangeRequest (public_token : value)
| PlaidItemPublicTokenExchange (exchange_request : value)
| SmtpSend (smtp_host smtp_port smtp_user smtp_password contact_email : string)
           (name email message : value)
| Stdout (line : string).

Definition is_db_effect (e : effect) : bool :=
  match e with
  | UsersGet _ | UsersSetMerge _ _ | TransactionsAdd _ _ _
  | TransactionsQuery _ _ _ | ContactMessagesAdd _ _ => true
  | _ => false
  end.

Definition is_stripe_session_create (e : effect) : bool :=
  match e with StripeSessionCreate _ => true | _ => false end.

Record World := {
  store : Store;
  trace : list effect;
}.

(** What the collaborators answer during one request.  Each function is
    the SDK entry point of the same name; [Raise] is the exception it
    throws. *)
Record Env := {
  (** [auth.verify_id_token(id_token)["uid"]] *)
  verify_id_token : string -> result string;
  (** [stripe.checkout.Session.create(...).url] *)
  stripe_session_create : dict -> result value;
  (** [stripe.Webhook.construct_event(payload, sig_header, secret)] *)
  stripe_construct_event : string -> option string -> string -> result value;
  (** [json.loads(payload)] *)
  json_loads : string -> result value;
  (** [stripe.Event.construct_from(values, stripe.api_key)] *)
  stripe_construct_from : value -> result value;
  (** [plaid_client.link_token_create(request_body).to_dict()] *)
  plaid_link_token_create : value -> result value;
  (** [ItemPublicTokenExchangeRequest(public_token=...)] *)
  plaid_exchange_request : value -> result value;
  (** [plaid_client.item_public_token_exchange(exchange_request)] *)
  plaid_item_public_token_exchange : value -> result value;
  (** the SMTP conversation of [submit_contact_form] *)
  smtp_send : string -> string -> string -> string -> string ->
              value -> value -> value -> result unit;
  (** whether Firestore carries out a call or raises *)
  firestore_accepts : effect -> bool;
  (** how Firestore orders a collection on a field other than the
      timestamp, whose values the model does not compare *)
  firestore_order_by : string -> direction ->
                       list (string * Transaction) -> list (string * Transaction);
  (** the interpreter's [int] on a string that is not a [plain_literal] *)
  int_str : string -> result Z;
  (** the commit time Firestore assigns *)
  server_timestamp : Z;
  (** the document id [add] generates *)
  auto_id : string;
}.

(** The module-level state [create_app] closes over, and the environment
    variables read by the handlers. *)
Record Config := {
  stripe : bool;                         (* [stripe is not None] *)
  plaid_client : bool;                   (* [plaid_client is not None] *)
  db : bool;                             (* [db is not None] *)
  STRIPE_WEBHOOK_SECRET : option string;
  CONTACT_EMAIL : option string;
  SMTP_HOST : option string;
  SMTP_PORT : option string;
  SMTP_USER : option string;
  SMTP_PASSWORD : option string;
}.

Record Request := {
  (** [request.headers.get("Authorization")] *)
  Authorization : option string;
  (** [request.headers.get("Stripe-Signature")] *)
  Stripe_Signature : option string;
  (** [request.data] *)
  data : string;
  (** [request.get_json()]: the parsed body, or the framework's abort *)
  get_json : result value;
}.

Inductive body :=
| Empty
| Json (v : value).

Record Response := {
  resp_body : body;
  resp_status : Z;
}.

(** [jsonify(v), code] *)
Definition jsonify (v : value) (code : Z) : Response :=
  {| resp_body := Json v; resp_status := code |}.

(** ** The handler monad: state, exceptions, effect log *)

Definition M (A : Type) : Type := World -> result A * World.

Definition ret {A} (a : A) : M A := fun w => (Ok a, w).

Definition raise {A} (e : exn) : M A := fun w => (Raise e, w).

Definition bind {A B} (m : M A) (k : A -> M B) : M B :=
  fun w =>
    match m w with
    | (Ok a, w') => k a w'
    | (Raise e, w') => (Raise e, w')
    end.

(** [try: m  except Exception as exc: h exc] *)
Definition try_except {A} (m : M A) (h : exn -> M A) : M A :=
  fun w =>
    match m w with
    | (Ok a, w') => (Ok a, w')
    | (Raise e, w') => h e w'
    end.

Definition lift {A} (r : result A) : M A := fun w => (r, w).

Definition emit (e : effect) : M unit :=
  fun w => (Ok tt, {| store := store w; trace := trace w ++ [e] |}).

Definition get_store : M Store := fun w => (Ok (store w), w).

Definition put_store (s : Store) : M unit :=
  fun w => (Ok tt, {| store := s; trace := trace w |}).

(** stdpp's monad notation: [x ← m; k] and [m;; k]. *)
#[global] Instance M_ret : MRet M := @ret.
#[global] Instance M_bind : MBind M := fun A B k m => bind m k.

(** [try: x = m  except Exception as exc: return h exc]  followed by
    the rest of the handler [k x]. *)
Definition try_or_return {A} (m : M A) (h : exn -> M Response)
    (k : A -> M Response) : M Response :=
  fun w =>
    match m w with
    | (Ok a, w') => k a w'
    | (Raise e, w') => h e w'
    end.

(** ** Firestore queries *)

(** [order_by("timestamp", direction=DESCENDING)]: latest first, documents
    with equal timestamps by document id in the same direction. *)
Definition tx_desc (a b : string * Transaction) : Prop :=
  timestamp b.2 < timestamp a.2 ∨
  (timestamp a.2 = timestamp b.2 ∧ String.le b.1 a.1).

#[global] Instance tx_desc_dec : RelDecision tx_desc.
Proof. intros a b. unfold tx_desc. apply _. Defined.

Definition order_by_timestamp_desc (coll : gmap string Transaction)
  : list (string * Transaction) :=
  merge_sort tx_desc (map_to_list coll).

(** The same ordering, earliest first. *)
Definition tx_asc (a b : string * Transaction) : Prop := tx_desc b a.

#[global] Instance tx_asc_dec : RelDecision tx_asc.
Proof. intros a b. unfold tx_asc. apply _. Defined.

(** [collection.order_by(field, direction=dir).stream()] as the store
    answers it: on the timestamp the documents sorted in the direction
    asked for. *)
Definition order_by (other : string -> direction ->
                             list (string * Transaction) ->
                             list (string * Transaction))
    (field : string) (dir : direction) (coll : gmap string Transaction)
  : list (string * Transaction) :=
  if String.eqb field "timestamp" then
    match dir with
    | DESCENDING => merge_sort tx_desc (map_to_list coll)
    | ASCENDING => merge_sort tx_asc (map_to_list coll)
    end
  else other field dir (map_to_list coll).

(** [doc.to_dict()] *)
Definition to_dict (tx : Transaction) : dict :=
  [("amount", amount tx); ("currency", currency tx);
   ("payment_intent", payment_intent tx); ("status", status tx);
   ("timestamp", VTimestamp (timestamp tx))].

(** [set(fields, merge=True)] on the stored document. *)
Definition merge_fields (fields old : dict) : dict :=
  foldl (fun d kv => dict_set kv.1 kv.2 d) old fields.

Fixpoint slashes (s : string) : nat :=
  match s with
  | EmptyString => 0
  | String c s' => (if Ascii.eqb c "/" then 1 else 0) + slashes s'
  end.

(** [db.collection("users").document(uid)]: the client wants a string,
    splits the path at every "/" and refuses a document path with an odd
    number of elements, so an id with an odd number of "/" raises before
    any call is made. *)
Definition document (uid : value) : result string :=
  match uid with
  | VStr s =>
      if Nat.even (slashes s) then Ok s
      else Raise (Exn "ValueError"
                      "A document must have an even number of path elements")
  | _ => Raise (Exn "ValueError" "path element must be a string")
  end.

Definition user_transactions (s : Store) (uid : string)
  : gmap string Transaction :=
  default ∅ (transactions s !! uid).

Section Handlers.
Variable cfg : Config.
Variable env : Env.
Variable req : Request.

(** *** Calls into Firestore *)

Definition firestore_call (e : effect) : M unit :=
  emit e;;
  if firestore_accepts env e then mret tt
  else raise (Exn "GoogleAPICallError" "the document store refused the call").

(** [db.collection("users").document(uid).get()] *)
Definition users_get (uid : string) : M (option dict) :=
  firestore_call (UsersGet uid);;
  s ← get_store;
  mret (users s !! uid).

(** [db.collection("users").document(uid).set(fields, merge=True)] *)
Definition users_set_merge (uid : string) (fields : dict) : M unit :=
  firestore_call (UsersSetMerge uid fields);;
  s ← get_store;
  put_store {| users := <[uid := merge_fields fields (default [] (users s !! uid))]> (users s);
               transactions := transactions s;
               contact_messages := contact_messages s |}.

(** [db.collection("users").document(uid).collection("transactions").add(...)]
    with [SERVER_TIMESTAMP] as the timestamp: a new document under a
    generated id, refused when that id is taken. *)
Definition transactions_add (uid : string) (a c p st : value) : M unit :=
  let tx := {| amount := a; currency := c; payment_intent := p;
               status := st; timestamp := server_timestamp env |} in
  firestore_call (TransactionsAdd uid (auto_id env) tx);;
  s ← get_store;
  let coll := user_transactions s uid in
  match coll !! auto_id env with
  | None =>
      put_store {| users := users s;
                   transactions := <[uid := <[auto_id env := tx]> coll]> (transactions s);
                   contact_messages := contact_messages s |}
  | Some _ => raise (Exn "AlreadyExists" "document already exists")
  end.

(** [....collection("transactions").order_by(field, direction=dir).stream()] *)
Definition transactions_query (uid field : string) (dir : direction)
  : M (list (string * Transaction)) :=
  firestore_call (TransactionsQuery uid field dir);;
  s ← get_store;
  mret (order_by (firestore_order_by env) field dir (user_transactions s uid)).

(** [db.collection("contact_messages").add(...)] *)
Definition contact_messages_add (n e m : value) : M unit :=
  let msg := {| name := n; email := e; message := m;
                contact_timestamp := server_timestamp env |} in
  firestore_call (ContactMessagesAdd (auto_id env) msg);;
  s ← get_store;
  match contact_messages s !! auto_id env with
  | None =>
      put_store {| users := users s;
                   transactions := transactions s;
                   contact_messages := <[auto_id env := msg]> (contact_messages s) |}
  | Some _ => raise (Exn "AlreadyExists" "document already exists")
  end.

(** *** Helpers *)

(** [request.get_json() or {}] *)
Definition get_json_or_empty : M value :=
  j ← lift (get_json req);
  mret (if truthy j then j else VDict []).

(** The local [from firebase_admin import auth] is not modelled: a handler
    gets here only past its [is None] check, that is, when the module-level
    imports, [firebase_admin] among them, went through. *)
Definition _verify_firebase_id_token : M string :=
  let auth_header := Authorization req in
  if negb (truthy_str auth_header)
     || negb (String.prefix "Bearer " (default "" auth_header))
  then raise (Exn "ValueError" "Missing Authorization header")
  else
    match split_space (default "" auth_header) !! 1%nat with
    | Some id_token =>
        emit (VerifyIdToken id_token);;
        lift (verify_id_token env id_token)
    | None => raise (Exn "IndexError" "list index out of range")
    end.

Definition error_body (msg : string) : value := VDict [("error", VStr msg)].

(** *** Routes *)

Definition health : M Response :=
  mret (jsonify (VDict [("status", VStr "ok")]) 200).

(** The keyword arguments of [stripe.checkout.Session.create]. *)
Definition session_kwargs (unit_amount : Z)
    (description customer_email success_url cancel_url : value) : dict :=
  [("payment_method_types", VList [VStr "card"; VStr "us_bank_account"]);
   ("line_items",
    VList [VDict [("price_data",
                   VDict [("currency", VStr "usd");
                          ("unit_amount", VInt unit_amount);
                          ("product_data", VDict [("name", description)])]);
                  ("quantity", VInt 1)]]);
   ("mode", VStr "payment");
   ("customer_email", customer_email);
   ("success_url", success_url);
   ("cancel_url", cancel_url)].

Definition create_checkout_session : M Response :=
  if negb (stripe cfg) then
    mret (jsonify (error_body "Stripe SDK not installed") 500)
  else
    data ← get_json_or_empty;
    a ← lift (py_get data "amount" (VInt 0));
    amount ← lift (py_int (int_str env) a);
    description ← lift (py_get data "description" (VStr "Legal Services Payment"));
    success_url ← lift (py_get data "success_url" VNone);
    cancel_url ← lift (py_get data "cancel_url" VNone);
    if negb (py_all [VInt amount; success_url; cancel_url]) then
      mret (jsonify (error_body "amount, success_url and cancel_url are required") 400)
    else
      try_except
        (uid ← _verify_firebase_id_token;
         customer_email ←
           (if db cfg then
              doc ← users_get uid;
              mret (match doc with
                    | Some d => from_option id VNone (dict_lookup "email" d)
                    | None => VNone
                    end)
            else mret VNone);
         let kwargs := session_kwargs amount description customer_email
                                      success_url cancel_url in
         emit (StripeSessionCreate kwargs);;
         url ← lift (stripe_session_create env kwargs);
         mret (jsonify (VDict [("url", url)]) 200))
        (fun exc => mret (jsonify (error_body (str_exc exc)) 400)).

(** The [try] block of [stripe_webhook]. *)
Definition construct_webhook_event : M value :=
  let payload := data req in
  let sig_header := Stripe_Signature req in
  let webhook_secret := STRIPE_WEBHOOK_SECRET cfg in
  if truthy_str webhook_secret then
    emit (StripeConstructEvent payload sig_header (default "" webhook_secret));;
    lift (stripe_construct_event env payload sig_header (default "" webhook_secret))
  else
    values ← lift (json_loads env payload);
    emit (StripeConstructFrom values);;
    lift (stripe_construct_from env values).

(** The part of [stripe_webhook] after the [try] block. *)
Definition handle_event (event : value) : M Response :=
  ty ← lift (py_getitem event "type");
  (if eq_str ty "checkout.session.completed" then
     d ← lift (py_getitem event "data");
     session ← lift (py_getitem d "object");
     ref ← lift (py_get session "client_reference_id" VNone);
     let uid := if negb (truthy ref) then VStr "unknown" else ref in
     user ← lift (document uid);
     a ← lift (py_getitem session "amount_total");
     c ← lift (py_getitem session "currency");
     p ← lift (py_get session "payment_intent" VNone);
     st ← lift (py_getitem session "payment_status");
     transactions_add user a c p st
   else mret tt);;
  mret {| resp_body := Empty; resp_status := 200 |}.

Definition stripe_webhook : M Response :=
  if negb (stripe cfg) || negb (db cfg) then
    mret {| resp_body := Empty; resp_status := 500 |}
  else
    try_or_return construct_webhook_event
      (fun _ => mret {| resp_body := Empty; resp_status := 400 |})
      handle_event.

Definition plaid_create_link_token : M Response :=
  if negb (plaid_client cfg) then
    mret (jsonify (error_body "Plaid SDK not installed") 500)
  else
    try_or_return _verify_firebase_id_token
      (fun exc => mret (jsonify (error_body (str_exc exc)) 401))
      (fun uid =>
         let request_body :=
           VDict [("user", VDict [("client_user_id", VStr uid)]);
                  ("client_name", VStr "Zarcaro APC");
                  ("products", VList [VStr "auth"]);
                  ("country_codes", VList [VStr "US"]);
                  ("language", VStr "en")] in
         try_except
           (emit (PlaidLinkTokenCreate request_body);;
            response ← lift (plaid_link_token_create env request_body);
            mret (jsonify response 200))
           (fun exc => mret (jsonify (error_body (str_exc exc)) 400))).

Definition plaid_exchange_public_token : M Response :=
  if negb (plaid_client cfg) || negb (db cfg) then
    mret (jsonify (error_body "Plaid or Firestore not configured") 500)
  else
    data ← get_json_or_empty;
    public_token ← lift (py_get data "public_token" VNone);
    if negb (truthy public_token) then
      mret (jsonify (error_body "public_token is required") 400)
    else
      try_or_return _verify_firebase_id_token
        (fun exc => mret (jsonify (error_body (str_exc exc)) 401))
        (fun uid =>
           emit (PlaidExchangeRequest public_token);;
           exchange_request ← lift (plaid_exchange_request env public_token);
           try_except
             (emit (PlaidItemPublicTokenExchange exchange_request);;
              exchange_response ←
                lift (plaid_item_public_token_exchange env exchange_request);
              access_token ← lift (py_getitem exchange_response "access_token");
              users_set_merge uid [("plaidAccessToken", access_token)];;
              mret (jsonify (VDict [("message", VStr "Bank account linked")]) 200))
             (fun exc => mret (jsonify (error_body (str_exc exc)) 400))).

(** The notification of [submit_contact_form], from reading the
    environment variables to the [except] clause. *)
Definition notify_operator (name email message : value) : M unit :=
  let contact_email := CONTACT_EMAIL cfg in
  let smtp_host := SMTP_HOST cfg in
  let smtp_port := SMTP_PORT cfg in
  let smtp_user := SMTP_USER cfg in
  let smtp_password := SMTP_PASSWORD cfg in
  if truthy_str contact_email && truthy_str smtp_host && truthy_str smtp_port
     && truthy_str smtp_user && truthy_str smtp_password
  then
    try_except
      (emit (SmtpSend (default "" smtp_host) (default "" smtp_port)
                      (default "" smtp_user) (default "" smtp_password)
                      (default "" contact_email) name email message);;
       lift (smtp_send env (default "" smtp_host) (default "" smtp_port)
                       (default "" smtp_user) (default "" smtp_password)
                       (default "" contact_email) name email message))
      (fun exc => emit (Stdout ("Failed to send contact email: " +:+ str_exc exc)))
  else mret tt.

Definition submit_contact_form : M Response :=
  data ← get_json_or_empty;
  name ← lift (py_get data "name" VNone);
  email ← lift (py_get data "email" VNone);
  message ← lift (py_get data "message" VNone);
  if negb (py_all [name; email; message]) then
    mret (jsonify (error_body "name, email and message are required") 400)
  else
    (if db cfg then contact_messages_add name email message else mret tt);;
    notify_operator name email message;;
    mret (jsonify (VDict [("message", VStr "Contact form submitted")]) 200).

(** One element of the list [list_transactions] returns:
    [data = doc.to_dict(); data["id"] = doc.id]. *)
Definition transaction_json (doc : string * Transaction) : value :=
  VDict (dict_set "id" (VStr doc.1) (to_dict doc.2)).

Definition list_transactions : M Response :=
  if negb (db cfg) then
    mret (jsonify (error_body "Firestore not configured") 500)
  else
    try_or_return _verify_firebase_id_token
      (fun exc => mret (jsonify (error_body (str_exc exc)) 401))
      (fun uid =>
         docs ← transactions_query uid "timestamp" DESCENDING;
         mret (jsonify (VList (transaction_json <$> docs)) 200)).

End Handlers.

(** ** Reading the outcome of a handler *)

(** The calls a handler made, given the worlds before and after it. *)
Definition new_effects (before after : World) : list effect :=
  drop (length (trace before)) (trace after).

Definition no_db_effect (es : list effect) : bool :=
  forallb (fun e => negb (is_db_effect e)) es.

Definition is_construct_event (e : effect) : bool :=
  match e with StripeConstructEvent _ _ _ => true | _ => false end.

(** [w] after the calls [es], the store left as it was. *)
Definition logged (w : World) (es : list effect) : World :=
  {| store := store w; trace := trace w ++ es |}.

(** The value the [try] block of [stripe_webhook] computes. *)
Definition webhook_event (cfg : Config) (env : Env) (req : Request)
  : result value :=
  if truthy_str (STRIPE_WEBHOOK_SECRET cfg) then
    stripe_construct_event env (data req) (Stripe_Signature req)
      (default "" (STRIPE_WEBHOOK_SECRET cfg))
  else
    match json_loads env (data req) with
    | Ok values => stripe_construct_from env values
    | Raise e => Raise e
    end.

(** The SDK calls that block makes. *)
Definition webhook_event_calls (cfg : Config) (env : Env) (req : Request)
  : list effect :=
  if truthy_str (STRIPE_WEBHOOK_SECRET cfg) then
    [StripeConstructEvent (data req) (Stripe_Signature req)
       (default "" (STRIPE_WEBHOOK_SECRET cfg))]
  else
    match json_loads env (data req) with
    | Ok values => [StripeConstructFrom values]
    | Raise _ => []
    end.

(** The delivery does not pass the authenticity step: with a secret
    configured, [construct_event] rejects the signature or the payload;
    with none, the payload cannot be loaded as an event. *)
Definition rejected_delivery (cfg : Config) (env : Env) (req : Request) : Prop :=
  (∃ secret e, STRIPE_WEBHOOK_SECRET cfg = Some secret ∧ secret ≠ "" ∧
     stripe_construct_event env (data req) (Stripe_Signature req) secret = Raise e)
  ∨ (truthy_str (STRIPE_WEBHOOK_SECRET cfg) = false ∧
     ((∃ e, json_loads env (data req) = Raise e) ∨
      (∃ values e, json_loads env (data req) = Ok values ∧
                   stripe_construct_from env values = Raise e))).

(** With no secret configured: the payload is not loaded as an event,
    because [json.loads] raises on it or because [Event.construct_from]
    raises on what [json.loads] returned. *)
Definition event_not_loaded (env : Env) (req : Request) : Prop :=
  (∃ e, json_loads env (data req) = Raise e) ∨
  (∃ values e, json_loads env (data req) = Ok values ∧
               stripe_construct_from env values = Raise e).

(** The payload is not JSON: [json.loads] raises on it. *)
Definition unparseable_json (env : Env) (req : Request) : Prop :=
  ∃ e, json_loads env (data req) = Raise e.

(** The JSON object the transactions endpoint returns for a stored
    document: the five stored fields and the document id. *)
Definition listed_object (doc : string * Transaction) : value :=
  VDict [("amount", amount doc.2); ("currency", currency doc.2);
         ("payment_intent", payment_intent doc.2); ("status", status doc.2);
         ("timestamp", VTimestamp (timestamp doc.2)); ("id", VStr doc.1)].

(** The same request under another [Stripe-Signature] header. *)
Definition with_signature (req : Request) (sig_header : option string)
  : Request :=
  {| Authorization := Authorization req; Stripe_Signature := sig_header;
     data := data req; get_json := get_json req |}.

(** An event of kind "checkout.session.completed" about [session]. *)
Definition completed_event (event session : value) : Prop :=
  py_getitem event "type" = Ok (VStr "checkout.session.completed") ∧
  ∃ d, py_getitem event "data" = Ok d ∧ py_getitem d "object" = Ok session.

(** The fields [stripe_webhook] reads from a session. *)
Definition session_fields (session ref a c p st : value) : Prop :=
  py_get session "client_reference_id" VNone = Ok ref ∧
  py_getitem session "amount_total" = Ok a ∧
  py_getitem session "currency" = Ok c ∧
  py_get session "payment_intent" VNone = Ok p ∧
  py_getitem session "payment_status" = Ok st.

(** The user a session is attributed to. *)
Definition attributed_user (ref : value) : result string :=
  document (if negb (truthy ref) then VStr "unknown" else ref).

(** A delivery that passes the authenticity step with a completed session
    attributed to [user] and carrying the processor reference [pi]; [tx] is
    the record [stripe_webhook] builds from it. *)
Definition completed_delivery (cfg : Config) (env : Env) (req : Request)
    (user pi : string) (tx : Transaction) : Prop :=
  ∃ event session ref a c st,
    webhook_event cfg env req = Ok event ∧
    completed_event event session ∧
    session_fields session ref a c (VStr pi) st ∧
    attributed_user ref = Ok user ∧
    tx = {| amount := a; currency := c; payment_intent := VStr pi;
            status := st; timestamp := server_timestamp env |}.

(** Firestore carries out the [add] of [tx]: it accepts the call and the
    generated id is not taken in [coll]. *)
Definition store_takes (env : Env) (coll : gmap string Transaction)
    (user : string) (tx : Transaction) : Prop :=
  firestore_accepts env (TransactionsAdd user (auto_id env) tx) = true ∧
  coll !! auto_id env = None.

(** The world after [add] stored [tx] under [doc_id] for [uid]. *)
Definition with_transaction (w : World) (uid doc_id : string)
    (tx : Transaction) : World :=
  {| store := {| users := users (store w);
                 transactions :=
                   <[uid := <[doc_id := tx]> (user_transactions (store w) uid)]>
                     (transactions (store w));
                 contact_messages := contact_messages (store w) |};
     trace := trace w |}.

(** The documents of a collection that carry the processor reference [pi]. *)
Definition with_reference (pi : string) (coll : gmap string Transaction)
  : gmap string Transaction :=
  filter (fun kv => eq_str (payment_intent kv.2) pi = true) coll.

(** The header does not carry a bearer credential. *)
Definition lacks_bearer (auth_header : option string) : Prop :=
  auth_header = None ∨
  ∃ h, auth_header = Some h ∧ String.prefix "Bearer " h = false.

(** The JSON body of a checkout request yields these inputs: the first
    five assignments of [create_checkout_session] go through. *)
Definition checkout_input (env : Env) (req : Request) (amount : Z)
    (description success_url cancel_url : value) : Prop :=
  ∃ j a,
    get_json req = Ok j ∧
    py_get (if truthy j then j else VDict []) "amount" (VInt 0) = Ok a ∧
    py_int (int_str env) a = Ok amount ∧
    py_get (if truthy j then j else VDict []) "description"
      (VStr "Legal Services Payment") = Ok description ∧
    py_get (if truthy j then j else VDict []) "success_url" VNone = Ok success_url ∧
    py_get (if truthy j then j else VDict []) "cancel_url" VNone = Ok cancel_url.

(** The JSON body of a token-exchange request carries [public_token]. *)
Definition exchange_input (req : Request) (public_token : value) : Prop :=
  ∃ j, get_json req = Ok j ∧
       py_get (if truthy j then j else VDict []) "public_token" VNone
         = Ok public_token.

(** The JSON body of a contact submission carries these three fields. *)
Definition contact_input (req : Request) (n e m : value) : Prop :=
  ∃ j, get_json req = Ok j ∧
       py_get (if truthy j then j else VDict []) "name" VNone = Ok n ∧
       py_get (if truthy j then j else VDict []) "email" VNone = Ok e ∧
       py_get (if truthy j then j else VDict []) "message" VNone = Ok m.

(** The success response of [submit_contact_form]. *)
Definition contact_submitted : Response :=
  jsonify (VDict [("message", VStr "Contact form submitted")]) 200.

(** The cached email [create_checkout_session] finds for [uid]. *)
Definition cached_email (s : Store) (uid : string) : value :=
  match users s !! uid with
  | Some d => from_option id VNone (dict_lookup "email" d)
  | None => VNone
  end.

(** The header carries [id_token] and the identity provider maps it to [uid]. *)
Definition verifies (env : Env) (req : Request) (id_token uid : string) : Prop :=
  ∃ h, Authorization req = Some h ∧ String.prefix "Bearer " h = true ∧
       split_space h !! 1%nat = Some id_token ∧
       verify_id_token env id_token = Ok uid.


(** ** What a handler leaves in place *)

(** Whatever the world it starts in, [m] takes the store to one related
    to it by [R]. *)
Definition preserves {A} (R : relation Store) (m : M A) : Prop :=
  ∀ w, R (store w) (store (m w).2).

(** The [users] and [contact_messages] collections are the same and every
    stored transaction is still there under its id. *)
Definition append_only (s s' : Store) : Prop :=
  users s' = users s ∧
  contact_messages s' = contact_messages s ∧
  ∀ uid, user_transactions s uid ⊆ user_transactions s' uid.

(** Only [contact_messages] may have grown. *)
Definition contact_only (s s' : Store) : Prop :=
  users s' = users s ∧
  transactions s' = transactions s ∧
  contact_messages s ⊆ contact_messages s'.

(** Only the [users] collection may differ. *)
Definition users_only (s s' : Store) : Prop :=
  transactions s' = transactions s ∧
  contact_messages s' = contact_messages s.

(** The world after [set({"plaidAccessToken": token}, merge=True)] on the
    document of [uid]. *)
Definition with_access_token (w : World) (uid : string) (access_token : value)
  : World :=
  {| store := {| users :=
                   <[uid := dict_set "plaidAccessToken" access_token
                              (default [] (users (store w) !! uid))]>
                     (users (store w));
                 transactions := transactions (store w);
                 contact_messages := contact_messages (store w) |};
     trace := trace w |}.

(** The request body [plaid_create_link_token] builds for [uid]. *)
Definition link_token_request (uid : string) : value :=
  VDict [("user", VDict [("client_user_id", VStr uid)]);
         ("client_name", VStr "Zarcaro APC");
         ("products", VList [VStr "auth"]);
         ("country_codes", VList [VStr "US"]);
         ("language", VStr "en")].

(** The ID token [_verify_firebase_id_token] takes from the header, or the
    exception it raises before calling the identity provider. *)
Definition id_token_of (req : Request) : result string :=
  let auth_header := Authorization req in
  if negb (truthy_str auth_header)
     || negb (String.prefix "Bearer " (default "" auth_header))
  then Raise (Exn "ValueError" "Missing Authorization header")
  else
    match split_space (default "" auth_header) !! 1%nat with
    | Some id_token => Ok id_token
    | None => Raise (Exn "IndexError" "list index out of range")
    end.

(** What [_verify_firebase_id_token] returns or raises. *)
Definition verify_result (env : Env) (req : Request) : result string :=
  match id_token_of req with
  | Ok id_token => verify_id_token env id_token
  | Raise e => Raise e
  end.

(** The calls [_verify_firebase_id_token] makes. *)
Definition verify_calls (req : Request) : list effect :=
  match id_token_of req with
  | Ok id_token => [VerifyIdToken id_token]
  | Raise _ => []
  end.

Fixpoint contains_space (s : string) : bool :=
  match s with
  | EmptyString => false
  | String c s' => Ascii.eqb c " " || contains_space s'
  end.

Definition is_smtp_send (e : effect) : bool :=
  match e with SmtpSend _ _ _ _ _ _ _ _ => true | _ => false end.

Definition is_stdout (e : effect) : bool :=
  match e with Stdout _ => true | _ => false end.

(** The condition under which [submit_contact_form] tries to send mail. *)
Definition smtp_configured (cfg : Config) : bool :=
  truthy_str (CONTACT_EMAIL cfg) && truthy_str (SMTP_HOST cfg)
  && truthy_str (SMTP_PORT cfg) && truthy_str (SMTP_USER cfg)
  && truthy_str (SMTP_PASSWORD cfg).

(** ** Start-up: [create_app] *)

#[global] Instance result_ret : MRet result := @Ok.
#[global] Instance result_bind : MBind result :=
  fun A B k r => match r with Ok a => k a | Raise e => Raise e end.

(** [plaid.Environment.Sandbox], [.Development], [.Production] *)
Inductive plaid_host := Sandbox | Development | Production.

(** [s.lower()] on ASCII letters; other characters are kept.  (No
    character outside ASCII lowers to a letter of the three accepted
    environment names, so the check below decides as the interpreter
    does.) *)
Definition lower_ascii (c : ascii) : ascii :=
  let n := N_of_ascii c in
  if ((65 <=? n) && (n <=? 90))%N then ascii_of_N (n + 32) else c.

Fixpoint py_lower (s : string) : string :=
  match s with
  | EmptyString => EmptyString
  | String c s' => String (lower_ascii c) (py_lower s')
  end.

(** What [create_app] finds when it runs: whether the module-level [try]
    imported the SDKs, the process environment, the file system, and the
    SDK constructors it calls. *)
Record Startup := {
  (** the imports of lines 37-50 went through, so [stripe], [plaid],
      [credentials] ... are modules and not [None] *)
  sdks_imported : bool;
  (** [os.environ] *)
  environ : gmap string string;
  (** [os.path.exists] *)
  path_exists : string -> bool;
  (** [json.loads] on the service-account variable *)
  loads_credentials : string -> result value;
  (** [credentials.Certificate(arg)], on a dict or on a path *)
  Certificate : value -> result unit;
  (** [initialize_app(cred)] *)
  initialize_app : result unit;
  (** [firestore.client()] *)
  firestore_client : result unit;
  (** [plaid_api.PlaidApi(plaid.ApiClient(plaid.Configuration(host, api_key)))] *)
  PlaidApi : plaid_host -> option string -> option string -> result unit;
}.

(** The state the handlers close over once [create_app] has returned. *)
Record App := {
  (** [stripe is not None] *)
  app_stripe : bool;
  (** [stripe.api_key], when [create_app] has set it *)
  app_stripe_api_key : option string;
  (** the host of [plaid_client], when there is one *)
  app_plaid_client : option plaid_host;
  (** [db is not None] *)
  app_db : bool;
}.

Definition plaid_environments : list (string * plaid_host) :=
  [("sandbox", Sandbox); ("development", Development); ("production", Production)].

Fixpoint assoc_lookup {A} (k : string) (l : list (string * A)) : option A :=
  match l with
  | [] => None
  | (k', v) :: l' => if String.eqb k' k then Some v else assoc_lookup k l'
  end.

(** Lines 83-101 of [create_app]. *)
Definition configure_plaid (s : Startup) : result (option plaid_host) :=
  if sdks_imported s then
    let plaid_env := py_lower (default "sandbox" (environ s !! "PLAID_ENV")) in
    if negb (existsb (String.eqb plaid_env) ["sandbox"; "development"; "production"])
    then Raise (Exn "ValueError"
                    "PLAID_ENV must be one of sandbox, development, production")
    else
      match assoc_lookup plaid_env plaid_environments with
      | Some host =>
          PlaidApi s host (environ s !! "PLAID_CLIENT_ID") (environ s !! "PLAID_SECRET");;
          mret (Some host)
      | None => Raise (Exn "KeyError" plaid_env)
      end
  else mret None.

(** Lines 103-123 of [create_app]. *)
Definition configure_firebase (s : Startup) : result bool :=
  if sdks_imported s then
    let firebase_credentials_json := environ s !! "FIREBASE_SERVICE_ACCOUNT_JSON" in
    (if truthy_str firebase_credentials_json then
       creds_dict ← loads_credentials s (default "" firebase_credentials_json);
       Certificate s creds_dict
     else
       let firebase_key_path := environ s !! "FIREBASE_SERVICE_ACCOUNT_FILE" in
       if truthy_str firebase_key_path
          && path_exists s (default "" firebase_key_path)
       then Certificate s (VStr (default "" firebase_key_path))
       else Raise (Exn "RuntimeError"
                       "Firebase service account credentials not provided."));;
    initialize_app s;;
    firestore_client s;;
    mret true
  else mret false.

Definition create_app (s : Startup) : result App :=
  let stripe_secret_key := environ s !! "STRIPE_SECRET_KEY" in
  let api_key :=
    if sdks_imported s && truthy_str stripe_secret_key
    then stripe_secret_key else None in
  plaid_client ← configure_plaid s;
  db ← configure_firebase s;
  mret {| app_stripe := sdks_imported s;
          app_stripe_api_key := api_key;
          app_plaid_client := plaid_client;
          app_db := db |}.

(** What the handlers of a started app see: the handles [create_app] left
    and the environment variables they read per request. *)
Definition app_config (s : Startup) (app : App) : Config :=
  {| stripe := app_stripe app;
     plaid_client := bool_decide (is_Some (app_plaid_client app));
     db := app_db app;
     STRIPE_WEBHOOK_SECRET := environ s !! "STRIPE_WEBHOOK_SECRET";
     CONTACT_EMAIL := environ s !! "CONTACT_EMAIL";
     SMTP_HOST := environ s !! "SMTP_HOST";
     SMTP_PORT := environ s !! "SMTP_PORT";
     SMTP_USER := environ s !! "SMTP_USER";
     SMTP_PASSWORD := environ s !! "SMTP_PASSWORD" |}.

(** The calls the notification step of [submit_contact_form] makes: none
    unless all five mail settings are non-empty, else the SMTP
    conversation, followed by one printed line when it raised. *)
Definition notification_calls (cfg : Config) (env : Env) (n e m : value)
  : list effect :=
  if smtp_configured cfg then
    SmtpSend (default "" (SMTP_HOST cfg)) (default "" (SMTP_PORT cfg))
             (default "" (SMTP_USER cfg)) (default "" (SMTP_PASSWORD cfg))
             (default "" (CONTACT_EMAIL cfg)) n e m
    :: match smtp_send env (default "" (SMTP_HOST cfg)) (default "" (SMTP_PORT cfg))
               (default "" (SMTP_USER cfg)) (default "" (SMTP_PASSWORD cfg))
               (default "" (CONTACT_EMAIL cfg)) n e m with
       | Ok _ => []
       | Raise exc => [Stdout ("Failed to send contact email: " +:+ str_exc exc)]
       end
  else [].

(** The same start-up under another process environment. *)
Definition with_environ (s : Startup) (vars : gmap string string) : Startup :=
  {| sdks_imported := sdks_imported s;
     environ := vars;
     path_exists := path_exists s;
     loads_credentials := loads_credentials s;
     Certificate := Certificate s;
     initialize_app := initialize_app s;
     firestore_client := firestore_client s;
     PlaidApi := PlaidApi s |}.

(** The Plaid environment name [create_app] checks. *)
Definition plaid_env_name (s : Startup) : string :=
  py_lower (default "sandbox" (environ s !! "PLAID_ENV")).

(** ** A concrete deployment, used for the examples below *)

Module Scenario.

Definition empty_store : Store :=
  {| users := ∅; transactions := ∅; contact_messages := ∅ |}.

Definition w0 : World := {| store := empty_store; trace := [] |}.

(** Everything installed, a webhook secret set, no SMTP settings. *)
Definition cfg_live : Config :=
  {| stripe := true; plaid_client := true; db := true;
     STRIPE_WEBHOOK_SECRET := Some "whsec_test";
     CONTACT_EMAIL := None; SMTP_HOST := None; SMTP_PORT := None;
     SMTP_USER := None; SMTP_PASSWORD := None |}.

(** The same with [STRIPE_WEBHOOK_SECRET] unset. *)
Definition cfg_unsigned : Config :=
  {| stripe := true; plaid_client := true; db := true;
     STRIPE_WEBHOOK_SECRET := None;
     CONTACT_EMAIL := None; SMTP_HOST := None; SMTP_PORT := None;
     SMTP_USER := None; SMTP_PASSWORD := None |}.

(** The SDK imports failed, so [stripe], [plaid_client] and [db] are all
    [None]; SMTP settings present. *)
Definition cfg_no_db : Config :=
  {| stripe := false; plaid_client := false; db := false;
     STRIPE_WEBHOOK_SECRET := Some "whsec_test";
     CONTACT_EMAIL := Some "office@example.test";
     SMTP_HOST := Some "smtp.example.test"; SMTP_PORT := Some "587";
     SMTP_USER := Some "mailer"; SMTP_PASSWORD := Some "secret" |}.

(** Firestore present and SMTP settings present. *)
Definition cfg_mail : Config :=
  {| stripe := true; plaid_client := true; db := true;
     STRIPE_WEBHOOK_SECRET := Some "whsec_test";
     CONTACT_EMAIL := Some "office@example.test";
     SMTP_HOST := Some "smtp.example.test"; SMTP_PORT := Some "587";
     SMTP_USER := Some "mailer"; SMTP_PASSWORD := Some "secret" |}.

Definition paid_session (ref : value) : value :=
  VDict [("id", VStr "cs_1"); ("client_reference_id", ref);
         ("amount_total", VInt 5000); ("currency", VStr "usd");
         ("payment_intent", VStr "pi_1"); ("payment_status", VStr "paid")].

Definition paid_event : value :=
  VDict [("id", VStr "evt_1"); ("type", VStr "checkout.session.completed");
         ("data", VDict [("object", paid_session (VStr "u1"))])].

Definition refund_event : value :=
  VDict [("id", VStr "evt_2"); ("type", VStr "charge.refunded");
         ("data", VDict [("object", VDict [("id", VStr "ch_1")])])].

(** Collaborators that answer as the live services would: one known ID
    token, one good signature, a few payloads that parse (no request below
    carries an amount that [int_str] is asked about); [smtp_ok] tells
    whether the mail server can be reached; Firestore commits at time
    [now] under the generated id [doc_id]. *)
Definition env_at (now : Z) (doc_id : string) (smtp_ok : bool) : Env :=
  {| verify_id_token tok :=
       if String.eqb tok "tok-u1" then Ok "u1"
       else Raise (Exn "InvalidIdTokenError" "invalid ID token");
     stripe_session_create _ := Ok (VStr "https://checkout.stripe.test/c/pay/cs_1");
     stripe_construct_event payload sig_header secret :=
       if bool_decide (sig_header = Some "t=1,v1=good") then
         if String.eqb payload "payload-refund" then Ok refund_event
         else Ok paid_event
       else Raise (Exn "SignatureVerificationError"
                       "No signatures found matching the expected signature");
     json_loads payload :=
       if String.eqb payload "payload-paid" then Ok paid_event
       else if String.eqb payload "payload-refund" then Ok refund_event
       else if String.eqb payload "payload-empty-object" then Ok (VDict [])
       else if String.eqb payload "[1]" then Ok (VList [VInt 1])
       else Raise (Exn "JSONDecodeError" "Expecting value");
     stripe_construct_from values :=
       match values with
       | VDict _ => Ok values
       | _ => Raise (Exn "AttributeError" "object has no attribute 'get'")
       end;
     plaid_link_token_create _ := Ok (VDict [("link_token", VStr "link-sandbox-1")]);
     plaid_exchange_request public_token := Ok (VDict [("public_token", public_token)]);
     plaid_item_public_token_exchange _ := Ok (VDict [("access_token", VStr "access-sandbox-1")]);
     smtp_send _ _ _ _ _ _ _ _ :=
       if smtp_ok then Ok tt
       else Raise (Exn "ConnectionRefusedError" "Connection refused");
     firestore_accepts _ := true;
     firestore_order_by _ _ docs := docs;
     int_str _ := Raise (Exn "ValueError" "invalid literal for int() with base 10");
     server_timestamp := now;
     auto_id := doc_id |}.

(** The same collaborators with a payment processor that turns every
    session request down. *)
Definition env_stripe_rejects : Env :=
  let env := env_at 100 "doc-a" true in
  {| verify_id_token := verify_id_token env;
     stripe_session_create _ :=
       Raise (Exn "InvalidRequestError" "Invalid integer");
     stripe_construct_event := stripe_construct_event env;
     json_loads := json_loads env;
     stripe_construct_from := stripe_construct_from env;
     plaid_link_token_create := plaid_link_token_create env;
     plaid_exchange_request := plaid_exchange_request env;
     plaid_item_public_token_exchange := plaid_item_public_token_exchange env;
     smtp_send := smtp_send env;
     firestore_accepts := firestore_accepts env;
     firestore_order_by := firestore_order_by env;
     int_str := int_str env;
     server_timestamp := server_timestamp env;
     auto_id := auto_id env |}.

(** A webhook delivery. *)
Definition delivery (payload : string) (sig_header : option string) : Request :=
  {| Authorization := None; Stripe_Signature := sig_header;
     data := payload; get_json := Ok VNone |}.

(** A JSON request with the given [Authorization] header. *)
Definition json_request (auth_header : option string) (json : value) : Request :=
  {| Authorization := auth_header; Stripe_Signature := None;
     data := ""; get_json := Ok json |}.

Definition checkout_body (amount : value) : value :=
  VDict [("amount", amount); ("success_url", VStr "https://x/ok");
         ("cancel_url", VStr "https://x/cancel")].

Definition contact_body : value :=
  VDict [("name", VStr "Ada"); ("email", VStr "ada@example.test");
         ("message", VStr "Please call back")].

(** The world after the same paid event was delivered twice. *)
Definition after_first_delivery : World :=
  (stripe_webhook cfg_live (env_at 100 "doc-a" true)
     (delivery "payload-paid" (Some "t=1,v1=good")) w0).2.

Definition after_second_delivery : World :=
  (stripe_webhook cfg_live (env_at 200 "doc-b" true)
     (delivery "payload-paid" (Some "t=1,v1=good")) after_first_delivery).2.

End Scenario.

(** ** Further concrete cases *)

Module Cases.

(** A store that knows two users. *)
Definition w_users : World :=
  {| store :=
       {| users :=
            {[ "u1" := [("email", VStr "u1@example.test");
                        ("displayName", VStr "Ada")];
               "u2" := [("email", VStr "u2@example.test")] ]};
          transactions := ∅;
          contact_messages := ∅ |};
     trace := [] |}.

Definition exchange_body : value :=
  VDict [("public_token", VStr "public-sandbox-1")].

(** The collaborators of [Scenario.env_at] with a Plaid that is down. *)
Definition env_plaid_down : Env :=
  let env := Scenario.env_at 100 "doc-a" true in
  {| verify_id_token := verify_id_token env;
     stripe_session_create := stripe_session_create env;
     stripe_construct_event := stripe_construct_event env;
     json_loads := json_loads env;
     stripe_construct_from := stripe_construct_from env;
     plaid_link_token_create _ :=
       Raise (Exn "ApiException" "(503) Service Unavailable");
     plaid_exchange_request := plaid_exchange_request env;
     plaid_item_public_token_exchange _ :=
       Raise (Exn "ApiException" "(503) Service Unavailable");
     smtp_send := smtp_send env;
     firestore_accepts := firestore_accepts env;
     firestore_order_by := firestore_order_by env;
     int_str := int_str env;
     server_timestamp := server_timestamp env;
     auto_id := auto_id env |}.

(** The collaborators of [Scenario.env_at] with a Firestore that refuses
    every call. *)
Definition env_store_down : Env :=
  let env := Scenario.env_at 100 "doc-a" true in
  {| verify_id_token := verify_id_token env;
     stripe_session_create := stripe_session_create env;
     stripe_construct_event := stripe_construct_event env;
     json_loads := json_loads env;
     stripe_construct_from := stripe_construct_from env;
     plaid_link_token_create := plaid_link_token_create env;
     plaid_exchange_request := plaid_exchange_request env;
     plaid_item_public_token_exchange := plaid_item_public_token_exchange env;
     smtp_send := smtp_send env;
     firestore_accepts _ := false;
     firestore_order_by := firestore_order_by env;
     int_str := int_str env;
     server_timestamp := server_timestamp env;
     auto_id := auto_id env |}.

(** A paid session that names no user. *)
Definition anonymous_event : value :=
  VDict [("id", VStr "evt_3"); ("type", VStr "checkout.session.completed");
         ("data", VDict [("object",
            VDict [("id", VStr "cs_3"); ("amount_total", VInt 1200);
                   ("currency", VStr "usd"); ("payment_intent", VStr "pi_3");
                   ("payment_status", VStr "paid")])])].

(** Collaborators whose signed deliveries carry [anonymous_event]. *)
Definition env_anonymous : Env :=
  let env := Scenario.env_at 150 "doc-x" true in
  {| verify_id_token := verify_id_token env;
     stripe_session_create := stripe_session_create env;
     stripe_construct_event _ _ _ := Ok anonymous_event;
     json_loads := json_loads env;
     stripe_construct_from := stripe_construct_from env;
     plaid_link_token_create := plaid_link_token_create env;
     plaid_exchange_request := plaid_exchange_request env;
     plaid_item_public_token_exchange := plaid_item_public_token_exchange env;
     smtp_send := smtp_send env;
     firestore_accepts := firestore_accepts env;
     firestore_order_by := firestore_order_by env;
     int_str := int_str env;
     server_timestamp := server_timestamp env;
     auto_id := auto_id env |}.

(** SDK constructors that always go through. *)
Definition startup (imported : bool) (vars : gmap string string) : Startup :=
  {| sdks_imported := imported;
     environ := vars;
     path_exists p := String.eqb p "/etc/secrets/firebase.json";
     loads_credentials _ := Ok (VDict [("type", VStr "service_account")]);
     Certificate _ := Ok tt;
     initialize_app := Ok tt;
     firestore_client := Ok tt;
     PlaidApi _ _ _ := Ok tt |}.

End Cases.
(** ** Proof support *)

Ltac unfold_m :=
  unfold firestore_call in *;
  unfold mbind, M_bind, mret, M_ret, bind, ret, lift, raise, emit,
    get_store, put_store, try_except, try_or_return in *.

#[local] Arguments py_all : simpl never.

Lemma new_effects_logged w es : new_effects w (logged w es) = es.
Proof.
  unfold new_effects, logged; simpl. by rewrite drop_app_length.
Qed.

Lemma logged_nil w : logged w [] = w.
Proof. destruct w; unfold logged; simpl. by rewrite app_nil_r. Qed.

Lemma logged_logged w es1 es2 :
  logged (logged w es1) es2 = logged w (es1 ++ es2).
Proof. unfold logged; simpl. by rewrite app_assoc. Qed.

Lemma eq_str_true v s : eq_str v s = true ↔ v = VStr s.
Proof.
  destruct v; simpl; try (split; [discriminate | congruence]).
  rewrite String.eqb_eq. split; congruence.
Qed.

Lemma dict_lookup_set_eq k v d : dict_lookup k (dict_set k v d) = Some v.
Proof.
  induction d as [|[k' v'] d IH]; simpl.
  - by rewrite String.eqb_refl.
  - destruct (String.eqb k' k) eqn:E; simpl.
    + by rewrite String.eqb_refl.
    + by rewrite E.
Qed.

Lemma dict_lookup_set_ne k k' v d :
  k ≠ k' → dict_lookup k' (dict_set k v d) = dict_lookup k' d.
Proof.
  intros Hne. induction d as [|[k0 v0] d IH]; simpl.
  - by apply String.eqb_neq in Hne as ->.
  - destruct (String.eqb k0 k) eqn:E; simpl.
    + apply String.eqb_eq in E as ->.
      by apply String.eqb_neq in Hne as ->.
    + by rewrite IH.
Qed.

(** Each element of the list returned by [list_transactions] carries the
    document id and the stored fields. *)
Lemma transaction_json_fields doc :
  py_getitem (transaction_json doc) "id" = Ok (VStr doc.1) ∧
  py_getitem (transaction_json doc) "payment_intent" = Ok (payment_intent doc.2) ∧
  py_getitem (transaction_json doc) "amount" = Ok (amount doc.2) ∧
  py_getitem (transaction_json doc) "timestamp" = Ok (VTimestamp (timestamp doc.2)).
Proof.
  unfold transaction_json, py_getitem.
  rewrite dict_lookup_set_eq, !dict_lookup_set_ne by done.
  done.
Qed.

Lemma construct_webhook_event_spec cfg env req w :
  construct_webhook_event cfg env req w =
    (webhook_event cfg env req, logged w (webhook_event_calls cfg env req)).
Proof.
  unfold construct_webhook_event, webhook_event, webhook_event_calls.
  destruct (truthy_str _); unfold_m; simpl.
  - by destruct (stripe_construct_event _ _ _ _).
  - destruct (json_loads _ _); simpl; [|by rewrite logged_nil].
    by destruct (stripe_construct_from _ _).
Qed.

Lemma webhook_event_calls_no_db cfg env req :
  no_db_effect (webhook_event_calls cfg env req) = true.
Proof.
  unfold webhook_event_calls.
  destruct (truthy_str _); [done|]. by destruct (json_loads _ _).
Qed.

(** Python builtins on sample inputs. *)

Example split_bearer : split_space "Bearer abc def" = ["Bearer"; "abc"; "def"].
Proof. reflexivity. Qed.

Example int_of_str_examples :
  int_of_str " 5_000 " = Some 5000 /\ int_of_str "-12" = Some (-12) /\
  int_of_str "abc" = None /\ int_of_str "" = None /\ int_of_str "1__0" = None /\
  int_of_str "12.5" = None /\ int_of_str "007" = Some 7.
Proof. repeat split; reflexivity. Qed.

Example py_int_float int_str :
  py_int int_str (VFloat (FFinite 25 (-1))) = Ok 12 /\
  py_int int_str (VFloat (FFinite (-25) (-1))) = Ok (-12) /\
  py_int int_str (VStr " 12 ") = Ok 12.
Proof. repeat split; reflexivity. Qed.


Example document_examples :
  document (VStr "u1") = Ok "u1" /\ document (VStr "a/b/c") = Ok "a/b/c" /\
  document (VStr "a/b")
    = Raise (Exn "ValueError" "A document must have an even number of path elements") /\
  document (VInt 5) = Raise (Exn "ValueError" "path element must be a string").
Proof. repeat split; reflexivity. Qed.

Example int_skips_only_ascii_space int_str :
  py_int int_str (VStr (String "028" "5"))
    = Raise (Exn "ValueError" "invalid literal for int() with base 10") /\
  py_int int_str (VStr (String "009" "5")) = Ok 5.
Proof. split; reflexivity. Qed.

(** ** The payment webhook *)

Lemma truthy_str_true o :
  truthy_str o = true ↔ ∃ s, o = Some s ∧ s ≠ "".
Proof.
  destruct o as [s|]; simpl.
  - rewrite negb_true_iff, String.eqb_neq. split.
    + intros Hne. by exists s.
    + by intros (s' & [= <-] & Hne).
  - split; [done|]. by intros (s & ? & _).
Qed.

Lemma rejected_delivery_iff cfg env req :
  rejected_delivery cfg env req ↔ ∃ e, webhook_event cfg env req = Raise e.
Proof.
  unfold rejected_delivery, webhook_event. split.
  - intros [(secret & e & Hs & Hne & He) | [Hs H]].
    + assert (truthy_str (STRIPE_WEBHOOK_SECRET cfg) = true) as ->
        by (apply truthy_str_true; eauto).
      rewrite Hs; simpl. eauto.
    + rewrite Hs. destruct H as [[e He] | (v & e & Hv & He)].
      * rewrite He. eauto.
      * rewrite Hv. eauto.
  - intros [e He]. destruct (truthy_str _) eqn:Hs.
    + left. apply truthy_str_true in Hs as (secret & Hs & Hne).
      rewrite Hs in He; simpl in He. eauto 10.
    + right. split; [done|].
      destruct (json_loads _ _) as [v|e'] eqn:Hv; eauto 10.
Qed.

Lemma stripe_webhook_unfold cfg env req w :
  stripe cfg = true → db cfg = true →
  stripe_webhook cfg env req w =
    match webhook_event cfg env req with
    | Ok event => handle_event env event (logged w (webhook_event_calls cfg env req))
    | Raise _ => (Ok {| resp_body := Empty; resp_status := 400 |},
                  logged w (webhook_event_calls cfg env req))
    end.
Proof.
  intros Hs Hd. unfold stripe_webhook. rewrite Hs, Hd; simpl.
  unfold try_or_return. rewrite construct_webhook_event_spec.
  by destruct (webhook_event _ _ _).
Qed.

Lemma handle_event_other env event ty w :
  py_getitem event "type" = Ok ty →
  eq_str ty "checkout.session.completed" = false →
  handle_event env event w = (Ok {| resp_body := Empty; resp_status := 200 |}, w).
Proof.
  intros Hty Hne. unfold handle_event. unfold_m. by rewrite Hty, Hne.
Qed.

Lemma handle_event_completed env event session ref a c p st user w :
  completed_event event session →
  session_fields session ref a c p st →
  attributed_user ref = Ok user →
  let tx := {| amount := a; currency := c; payment_intent := p; status := st;
               timestamp := server_timestamp env |} in
  firestore_accepts env (TransactionsAdd user (auto_id env) tx) = true →
  user_transactions (store w) user !! auto_id env = None →
  handle_event env event w =
    (Ok {| resp_body := Empty; resp_status := 200 |},
     logged (with_transaction w user (auto_id env) tx)
            [TransactionsAdd user (auto_id env) tx]).
Proof.
  intros (Hty & d & Hd & Hobj) (Hr & Ha & Hc & Hp & Hst) Hu tx Hacc Hfresh.
  unfold handle_event, transactions_add. unfold_m.
  rewrite Hty; simpl. rewrite Hd, Hobj, Hr.
  unfold attributed_user in Hu. rewrite Hu, Ha, Hc, Hp, Hst.
  fold tx. rewrite Hacc. simpl. by rewrite Hfresh.
Qed.

(** C2: a delivery whose signature does not verify against the configured
    secret, or whose payload cannot be loaded, is answered with an empty
    body and a failure status (400, or 500 when the SDK or the store handle
    is missing) and nothing is written to the document store: the store is
    unchanged and no Firestore call is made. *)
Theorem webhook_rejects_unverified cfg env req w :
  rejected_delivery cfg env req →
  ∃ w',
    stripe_webhook cfg env req w =
      (Ok {| resp_body := Empty;
             resp_status := if stripe cfg && db cfg then 400 else 500 |}, w') ∧
    store w' = store w ∧
    no_db_effect (new_effects w w') = true.
Proof.
  intros [e He]%rejected_delivery_iff.
  destruct (stripe cfg) eqn:Hs, (db cfg) eqn:Hd; simpl.
  - rewrite stripe_webhook_unfold, He by done.
    eexists; split; [done|]. split; [done|].
    rewrite new_effects_logged. apply webhook_event_calls_no_db.
  - unfold stripe_webhook. rewrite Hs, Hd. exists w. split; [done|].
    split; [done|]. unfold new_effects. by rewrite drop_all.
  - unfold stripe_webhook. rewrite Hs. exists w. split; [done|].
    split; [done|]. unfold new_effects. by rewrite drop_all.
  - unfold stripe_webhook. rewrite Hs. exists w. split; [done|].
    split; [done|]. unfold new_effects. by rewrite drop_all.
Qed.

Lemma webhook_rejects_unverified_witness :
  rejected_delivery Scenario.cfg_live (Scenario.env_at 100 "doc-a" true)
    (Scenario.delivery "payload-paid" (Some "t=1,v1=forged")) ∧
  ∃ w',
    stripe_webhook Scenario.cfg_live (Scenario.env_at 100 "doc-a" true)
      (Scenario.delivery "payload-paid" (Some "t=1,v1=forged")) Scenario.w0 =
      (Ok {| resp_body := Empty; resp_status := 400 |}, w') ∧
    store w' = store Scenario.w0 ∧
    no_db_effect (new_effects Scenario.w0 w') = true.
Proof.
  assert (rejected_delivery Scenario.cfg_live (Scenario.env_at 100 "doc-a" true)
            (Scenario.delivery "payload-paid" (Some "t=1,v1=forged"))) as H.
  { left. eexists _, _. split; [reflexivity|]. split; [discriminate|].
    reflexivity. }
  split; [exact H|].
  exact (webhook_rejects_unverified Scenario.cfg_live
           (Scenario.env_at 100 "doc-a" true)
           (Scenario.delivery "payload-paid" (Some "t=1,v1=forged"))
           Scenario.w0 H).
Defined.

(** C7: a delivery that passed the authenticity step and whose event kind
    is not "checkout.session.completed" is acknowledged with an empty 200
    response; the store is unchanged and no Firestore call is made. *)
Theorem webhook_ignores_other_events cfg env req w event ty :
  stripe cfg = true → db cfg = true →
  webhook_event cfg env req = Ok event →
  py_getitem event "type" = Ok ty →
  ty ≠ VStr "checkout.session.completed" →
  ∃ w',
    stripe_webhook cfg env req w =
      (Ok {| resp_body := Empty; resp_status := 200 |}, w') ∧
    store w' = store w ∧
    no_db_effect (new_effects w w') = true.
Proof.
  intros Hs Hd Hev Hty Hne.
  rewrite stripe_webhook_unfold, Hev by done.
  erewrite handle_event_other; [|done|].
  - eexists; split; [done|]. split; [done|].
    rewrite new_effects_logged. apply webhook_event_calls_no_db.
  - destruct (eq_str ty _) eqn:E; [|done]. by apply eq_str_true in E.
Qed.

Lemma webhook_ignores_other_events_witness :
  ∃ w',
    stripe_webhook Scenario.cfg_live (Scenario.env_at 100 "doc-a" true)
      (Scenario.delivery "payload-refund" (Some "t=1,v1=good")) Scenario.w0 =
      (Ok {| resp_body := Empty; resp_status := 200 |}, w') ∧
    store w' = store Scenario.w0 ∧
    no_db_effect (new_effects Scenario.w0 w') = true.
Proof.
  apply (webhook_ignores_other_events Scenario.cfg_live
           (Scenario.env_at 100 "doc-a" true)
           (Scenario.delivery "payload-refund" (Some "t=1,v1=good"))
           Scenario.w0 Scenario.refund_event (VStr "charge.refunded"));
    [reflexivity | reflexivity | reflexivity | reflexivity | discriminate].
Defined.

Lemma user_transactions_with_transaction w uid doc_id tx :
  user_transactions (store (with_transaction w uid doc_id tx)) uid =
    <[doc_id := tx]> (user_transactions (store w) uid).
Proof.
  unfold user_transactions at 1; simpl. by rewrite lookup_insert_eq.
Qed.

Lemma stripe_webhook_completed cfg env req w user pi tx :
  stripe cfg = true → db cfg = true →
  completed_delivery cfg env req user pi tx →
  store_takes env (user_transactions (store w) user) user tx →
  ∃ w',
    stripe_webhook cfg env req w =
      (Ok {| resp_body := Empty; resp_status := 200 |}, w') ∧
    user_transactions (store w') user =
      <[auto_id env := tx]> (user_transactions (store w) user) ∧
    new_effects w w' =
      webhook_event_calls cfg env req ++ [TransactionsAdd user (auto_id env) tx].
Proof.
  intros Hs Hd (event & session & ref & a & c & st & Hev & Hc & Hf & Hu & ->)
         [Hacc Hfresh].
  rewrite stripe_webhook_unfold, Hev by done.
  erewrite handle_event_completed by done.
  eexists; split; [done|]. split.
  - etrans; [|apply user_transactions_with_transaction]. done.
  - unfold new_effects, logged; simpl.
    by rewrite <- app_assoc, drop_app_length.
Qed.

Lemma size_with_reference_insert pi coll doc_id tx :
  coll !! doc_id = None →
  payment_intent tx = VStr pi →
  size (with_reference pi (<[doc_id := tx]> coll)) =
    S (size (with_reference pi coll)).
Proof.
  intros Hfresh Hpi. unfold with_reference.
  rewrite map_filter_insert_True.
  - apply map_size_insert_None. by apply map_lookup_filter_None_2; left.
  - simpl. rewrite Hpi. simpl. apply String.eqb_refl.
Qed.

(** C1, as the handler behaves: [stripe_webhook] does not look for an
    earlier record.  Two deliveries carrying the same processor reference
    for the same user, each taken by the store, are both acknowledged and
    each appends one record: the user's collection then holds two more
    records with that reference than before. *)
Theorem webhook_appends_per_delivery cfg env1 env2 req1 req2 w user pi tx1 tx2 :
  stripe cfg = true → db cfg = true →
  completed_delivery cfg env1 req1 user pi tx1 →
  completed_delivery cfg env2 req2 user pi tx2 →
  store_takes env1 (user_transactions (store w) user) user tx1 →
  store_takes env2 (<[auto_id env1 := tx1]> (user_transactions (store w) user))
    user tx2 →
  ∃ w1 w2,
    stripe_webhook cfg env1 req1 w =
      (Ok {| resp_body := Empty; resp_status := 200 |}, w1) ∧
    stripe_webhook cfg env2 req2 w1 =
      (Ok {| resp_body := Empty; resp_status := 200 |}, w2) ∧
    size (with_reference pi (user_transactions (store w2) user)) =
      S (S (size (with_reference pi (user_transactions (store w) user)))).
Proof.
  intros Hs Hd H1 H2 Ht1 Ht2.
  destruct (stripe_webhook_completed cfg env1 req1 w user pi tx1)
    as (w1 & Hr1 & Hc1 & _); [done..|].
  destruct (stripe_webhook_completed cfg env2 req2 w1 user pi tx2)
    as (w2 & Hr2 & Hc2 & _); [done | done | done | by rewrite Hc1 |].
  exists w1, w2. split; [done|]. split; [done|].
  assert (payment_intent tx1 = VStr pi) as Hp1.
  { by destruct H1 as (? & ? & ? & ? & ? & ? & _ & _ & _ & _ & ->). }
  assert (payment_intent tx2 = VStr pi) as Hp2.
  { by destruct H2 as (? & ? & ? & ? & ? & ? & _ & _ & _ & _ & ->). }
  rewrite Hc2, Hc1.
  rewrite size_with_reference_insert; [|apply Ht2|done].
  rewrite size_with_reference_insert; [done|apply Ht1|done].
Qed.

Lemma webhook_appends_per_delivery_witness :
  ∃ w1 w2,
    stripe_webhook Scenario.cfg_live (Scenario.env_at 100 "doc-a" true)
      (Scenario.delivery "payload-paid" (Some "t=1,v1=good")) Scenario.w0 =
      (Ok {| resp_body := Empty; resp_status := 200 |}, w1) ∧
    stripe_webhook Scenario.cfg_live (Scenario.env_at 200 "doc-b" true)
      (Scenario.delivery "payload-paid" (Some "t=1,v1=good")) w1 =
      (Ok {| resp_body := Empty; resp_status := 200 |}, w2) ∧
    size (with_reference "pi_1" (user_transactions (store w2) "u1")) =
      S (S (size (with_reference "pi_1"
                    (user_transactions (store Scenario.w0) "u1")))).
Proof.
  apply (webhook_appends_per_delivery Scenario.cfg_live
           (Scenario.env_at 100 "doc-a" true) (Scenario.env_at 200 "doc-b" true)
           (Scenario.delivery "payload-paid" (Some "t=1,v1=good"))
           (Scenario.delivery "payload-paid" (Some "t=1,v1=good"))
           Scenario.w0 "u1" "pi_1"
           {| amount := VInt 5000; currency := VStr "usd";
              payment_intent := VStr "pi_1"; status := VStr "paid";
              timestamp := 100 |}
           {| amount := VInt 5000; currency := VStr "usd";
              payment_intent := VStr "pi_1"; status := VStr "paid";
              timestamp := 200 |}).
  - reflexivity.
  - reflexivity.
  - exists Scenario.paid_event, (Scenario.paid_session (VStr "u1")),
      (VStr "u1"), (VInt 5000), (VStr "usd"), (VStr "paid").
    repeat split; try reflexivity. eexists; split; reflexivity.
  - exists Scenario.paid_event, (Scenario.paid_session (VStr "u1")),
      (VStr "u1"), (VInt 5000), (VStr "usd"), (VStr "paid").
    repeat split; try reflexivity. eexists; split; reflexivity.
  - split; [reflexivity | vm_compute; reflexivity].
  - split; [reflexivity | vm_compute; reflexivity].
Defined.

(** C1 as stated fails: the same paid event for user "u1", reference
    "pi_1", delivered twice to an empty store leaves two records with that
    reference in the user's collection. *)
Lemma duplicate_delivery_two_records :
  ¬ (size (with_reference "pi_1"
             (user_transactions (store Scenario.after_second_delivery) "u1"))
     ≤ 1)%nat.
Proof. vm_compute. lia. Qed.

Lemma handle_event_response env event w r w' :
  handle_event env event w = (Ok r, w') →
  r = {| resp_body := Empty; resp_status := 200 |}.
Proof.
  unfold handle_event, transactions_add. unfold_m.
  intros H. repeat case_match; by simplify_eq.
Qed.

Lemma handle_event_trace env event w :
  ∃ es, trace (handle_event env event w).2 = trace w ++ es ∧
        existsb is_construct_event es = false.
Proof.
  unfold handle_event, transactions_add. unfold_m.
  repeat case_match; simplify_eq; simpl.
  all: first [ by exists []; rewrite app_nil_r | by eexists [_] ].
Qed.

Lemma webhook_event_unsigned cfg env req :
  truthy_str (STRIPE_WEBHOOK_SECRET cfg) = false →
  (∃ e, webhook_event cfg env req = Raise e) ↔ event_not_loaded env req.
Proof.
  intros Hs. rewrite <- rejected_delivery_iff.
  unfold rejected_delivery, event_not_loaded.
  split; [|by right].
  intros [(secret & e & Hsec & Hne & _) | [_ H]]; [|done].
  rewrite Hsec in Hs; simpl in Hs.
  apply negb_false_iff, String.eqb_eq in Hs. done.
Qed.

(** C10, as the handler behaves: the webhook checks a signature exactly
    when a webhook secret is configured.  With [STRIPE_WEBHOOK_SECRET]
    unset the outcome is the same under every [Stripe-Signature] header,
    and a payload that loads as a completed checkout session is
    acknowledged and its transaction is written under the user it names.
    The handler then answers 400 exactly when the [try] block raises: when
    [json.loads] raises on the payload, or when [Event.construct_from]
    raises on the value [json.loads] returned; unparseable JSON is one of
    the two ways, not the only one. *)
Theorem unsigned_webhook_skips_authenticity cfg env req w :
  stripe cfg = true → db cfg = true →
  existsb is_construct_event (new_effects w (stripe_webhook cfg env req w).2)
    = truthy_str (STRIPE_WEBHOOK_SECRET cfg) ∧
  (STRIPE_WEBHOOK_SECRET cfg = None →
     (∀ sig_header,
        stripe_webhook cfg env (with_signature req sig_header) w =
        stripe_webhook cfg env req w) ∧
     (∀ user pi tx,
        completed_delivery cfg env req user pi tx →
        store_takes env (user_transactions (store w) user) user tx →
        ∃ w', stripe_webhook cfg env req w =
                (Ok {| resp_body := Empty; resp_status := 200 |}, w') ∧
              user_transactions (store w') user !! auto_id env = Some tx) ∧
     ((∃ r w', stripe_webhook cfg env req w = (Ok r, w') ∧ resp_status r = 400)
      ↔ (∃ e, json_loads env (data req) = Raise e) ∨
        (∃ values e, json_loads env (data req) = Ok values ∧
                     stripe_construct_from env values = Raise e))).
Proof.
  intros Hs Hd. split; [|intros Hsec; split; [|split]].
  - rewrite stripe_webhook_unfold by done.
    assert (existsb is_construct_event (webhook_event_calls cfg env req)
            = truthy_str (STRIPE_WEBHOOK_SECRET cfg)) as Hcalls.
    { unfold webhook_event_calls. destruct (truthy_str _); [done|].
      by destruct (json_loads _ _). }
    destruct (webhook_event cfg env req) as [event|e].
    + destruct (handle_event_trace env event
                  (logged w (webhook_event_calls cfg env req))) as (es & Ht & Hes).
      unfold new_effects. rewrite Ht. simpl.
      rewrite <- app_assoc, drop_app_length, existsb_app, Hes, orb_false_r.
      exact Hcalls.
    + simpl. by rewrite new_effects_logged.
  - intros sig_header. rewrite !stripe_webhook_unfold by done.
    unfold webhook_event, webhook_event_calls. by rewrite Hsec.
  - intros user pi tx Hdel Htake.
    destruct (stripe_webhook_completed cfg env req w user pi tx)
      as (w' & Hr & Hc & _); [done..|].
    exists w'. split; [done|]. rewrite Hc. apply lookup_insert_eq.
  - change ((∃ e, json_loads env (data req) = Raise e) ∨
            (∃ values e, json_loads env (data req) = Ok values ∧
                         stripe_construct_from env values = Raise e))
      with (event_not_loaded env req).
    rewrite <- webhook_event_unsigned by by rewrite Hsec.
    rewrite stripe_webhook_unfold by done. split.
    + intros (r & w' & Hr & Hst).
      destruct (webhook_event cfg env req) as [event|e]; [|by eexists].
      apply handle_event_response in Hr. by subst r.
    + intros [e ->]. by eexists _, _.
Qed.

Lemma unsigned_webhook_skips_authenticity_witness :
  existsb is_construct_event
    (new_effects Scenario.w0
       (stripe_webhook Scenario.cfg_unsigned (Scenario.env_at 100 "doc-a" true)
          (Scenario.delivery "payload-paid" None) Scenario.w0).2) = false ∧
  ∃ w', stripe_webhook Scenario.cfg_unsigned (Scenario.env_at 100 "doc-a" true)
          (Scenario.delivery "payload-paid" None) Scenario.w0 =
          (Ok {| resp_body := Empty; resp_status := 200 |}, w') ∧
        user_transactions (store w') "u1" !! "doc-a" =
          Some {| amount := VInt 5000; currency := VStr "usd";
                  payment_intent := VStr "pi_1"; status := VStr "paid";
                  timestamp := 100 |}.
Proof.
  destruct (unsigned_webhook_skips_authenticity Scenario.cfg_unsigned
              (Scenario.env_at 100 "doc-a" true)
              (Scenario.delivery "payload-paid" None) Scenario.w0
              eq_refl eq_refl) as [Hcheck Hunset].
  split; [exact Hcheck|].
  destruct (Hunset eq_refl) as (_ & Hforged & _).
  apply (Hforged "u1" "pi_1").
  - exists Scenario.paid_event, (Scenario.paid_session (VStr "u1")),
      (VStr "u1"), (VInt 5000), (VStr "usd"), (VStr "paid").
    repeat split; try reflexivity. eexists; split; reflexivity.
  - split; [reflexivity | vm_compute; reflexivity].
Defined.

(** C10 as stated fails: with no secret set, the payload [[1]] is JSON
    that [json.loads] parses, yet the delivery is answered with 400,
    because [Event.construct_from] raises on a list. *)
Lemma parseable_payload_answered_400 :
  ¬ (∀ r w',
       stripe_webhook Scenario.cfg_unsigned (Scenario.env_at 100 "doc-a" true)
         (Scenario.delivery "[1]" None) Scenario.w0 = (Ok r, w') →
       resp_status r = 400 →
       unparseable_json (Scenario.env_at 100 "doc-a" true)
         (Scenario.delivery "[1]" None)).
Proof.
  intros H.
  edestruct H as [e He]; [vm_compute; reflexivity | reflexivity |].
  vm_compute in He. discriminate He.
Qed.

(** ** Bearer credentials *)

Lemma verify_lacks_bearer env req w :
  lacks_bearer (Authorization req) →
  _verify_firebase_id_token env req w =
    (Raise (Exn "ValueError" "Missing Authorization header"), w).
Proof.
  unfold _verify_firebase_id_token.
  intros [-> | (h & -> & Hp)]; simpl; [done|].
  rewrite Hp. by rewrite orb_true_r.
Qed.

Lemma verify_ok env req id_token uid w :
  verifies env req id_token uid →
  _verify_firebase_id_token env req w = (Ok uid, logged w [VerifyIdToken id_token]).
Proof.
  intros (h & Hh & Hp & Htok & Hv). unfold _verify_firebase_id_token.
  rewrite Hh; simpl. rewrite Hp; simpl.
  destruct h as [|c h']; [discriminate|]. simpl.
  simpl in Htok. rewrite Htok. unfold_m. by rewrite Hv.
Qed.

(** ** Checkout *)

Lemma checkout_incomplete cfg env req w amount description success_url cancel_url :
  stripe cfg = true →
  checkout_input env req amount description success_url cancel_url →
  py_all [VInt amount; success_url; cancel_url] = false →
  create_checkout_session cfg env req w =
    (Ok (jsonify (error_body "amount, success_url and cancel_url are required") 400),
     w).
Proof.
  intros Hs (j & a & Hj & Ha & Hi & Hd & Hsu & Hcu) Hall.
  unfold create_checkout_session, get_json_or_empty. rewrite Hs; simpl.
  unfold_m. rewrite Hj, Ha, Hi, Hd, Hsu, Hcu. by rewrite Hall.
Qed.

Lemma checkout_unauthorized cfg env req w amount description success_url cancel_url :
  stripe cfg = true →
  checkout_input env req amount description success_url cancel_url →
  py_all [VInt amount; success_url; cancel_url] = true →
  lacks_bearer (Authorization req) →
  create_checkout_session cfg env req w =
    (Ok (jsonify (error_body "Missing Authorization header") 400), w).
Proof.
  intros Hs (j & a & Hj & Ha & Hi & Hd & Hsu & Hcu) Hall Hb.
  unfold create_checkout_session, get_json_or_empty. rewrite Hs; simpl.
  unfold_m. rewrite Hj, Ha, Hi, Hd, Hsu, Hcu. rewrite Hall; simpl.
  by rewrite verify_lacks_bearer.
Qed.

(** A verified request with a complete body reaches the payment processor:
    the session request is made from the converted amount, whatever its
    sign, and the response is the processor's URL, or 400 with the
    processor's message. *)
Lemma checkout_calls_processor cfg env req w amount description success_url
    cancel_url id_token uid :
  stripe cfg = true →
  checkout_input env req amount description success_url cancel_url →
  py_all [VInt amount; success_url; cancel_url] = true →
  verifies env req id_token uid →
  (db cfg = true → firestore_accepts env (UsersGet uid) = true) →
  let customer_email := if db cfg then cached_email (store w) uid else VNone in
  let kwargs := session_kwargs amount description customer_email
                               success_url cancel_url in
  create_checkout_session cfg env req w =
    (Ok (match stripe_session_create env kwargs with
         | Ok url => jsonify (VDict [("url", url)]) 200
         | Raise exc => jsonify (error_body (str_exc exc)) 400
         end),
     logged w ([VerifyIdToken id_token]
               ++ (if db cfg then [UsersGet uid] else [])
               ++ [StripeSessionCreate kwargs])).
Proof.
  intros Hs (j & a & Hj & Ha & Hi & Hd & Hsu & Hcu) Hall Hv Hacc.
  unfold create_checkout_session, get_json_or_empty, users_get. rewrite Hs; simpl.
  unfold_m. rewrite Hj, Ha, Hi, Hd, Hsu, Hcu. rewrite Hall; simpl.
  rewrite (verify_ok _ _ _ _ _ Hv).
  destruct (db cfg); simpl.
  - rewrite Hacc by done. simpl. unfold cached_email.
    destruct (stripe_session_create _ _); simpl;
      unfold logged; simpl; by rewrite <- !app_assoc.
  - destruct (stripe_session_create _ _); simpl;
      unfold logged; simpl; by rewrite <- !app_assoc.
Qed.

Lemma session_kwargs_untagged amount description customer_email success_url
    cancel_url :
  dict_lookup "client_reference_id"
    (session_kwargs amount description customer_email success_url cancel_url)
  = None.
Proof. reflexivity. Qed.

(** C3, on the scenario of the specification: a verified request of user
    "u1" for 5000 cents reaches the payment processor with a session
    request that has no "client_reference_id" entry, so nothing in it names
    the user; [stripe_webhook] attributes a completed session without that
    entry to "unknown". *)
Theorem checkout_session_not_tagged :
  ∃ kwargs,
    create_checkout_session Scenario.cfg_live (Scenario.env_at 100 "doc-a" true)
      (Scenario.json_request (Some "Bearer tok-u1")
         (Scenario.checkout_body (VInt 5000))) Scenario.w0 =
      (Ok (jsonify (VDict [("url", VStr "https://checkout.stripe.test/c/pay/cs_1")]) 200),
       logged Scenario.w0
         [VerifyIdToken "tok-u1"; UsersGet "u1"; StripeSessionCreate kwargs]) ∧
    dict_lookup "unit_amount"
      (match dict_lookup "line_items" kwargs with
       | Some (VList [VDict [("price_data", VDict price_data); _]]) => price_data
       | _ => []
       end) = Some (VInt 5000) ∧
    dict_lookup "client_reference_id" kwargs = None ∧
    attributed_user VNone = Ok "unknown".
Proof.
  eexists. split; [vm_compute; reflexivity|]. by vm_compute.
Qed.

(** C5, as the handler behaves: the check is on presence.  An amount that
    [int] converts to zero (0, absent, [false], 0.0, "0") is answered with
    400 and an error body and nothing is called; any other amount that
    [int] converts, negative ones and numbers it truncates included,
    passes, and with both URLs, a verified credential and, where a store
    is configured, the email lookup answered, the session request goes to
    the payment processor with that amount. *)
Theorem checkout_requires_amount cfg env req w amount description success_url
    cancel_url :
  stripe cfg = true →
  checkout_input env req amount description success_url cancel_url →
  (amount = 0 →
   create_checkout_session cfg env req w =
     (Ok (jsonify (error_body "amount, success_url and cancel_url are required") 400),
      w)) ∧
  (amount ≠ 0 → truthy success_url = true → truthy cancel_url = true →
   ∀ id_token uid,
     verifies env req id_token uid →
     (db cfg = true → firestore_accepts env (UsersGet uid) = true) →
     ∃ customer_email,
       new_effects w (create_checkout_session cfg env req w).2 =
         [VerifyIdToken id_token] ++ (if db cfg then [UsersGet uid] else [])
         ++ [StripeSessionCreate
               (session_kwargs amount description customer_email
                               success_url cancel_url)]).
Proof.
  intros Hs Hin. split.
  - intros ->. by eapply checkout_incomplete.
  - intros Hne Hsu Hcu id_token uid Hv Hacc.
    eexists. erewrite checkout_calls_processor; [| done | done | | done | done].
    + simpl. apply new_effects_logged.
    + unfold py_all; simpl. rewrite Hsu, Hcu.
      by destruct (Z.eqb_spec amount 0).
Qed.

Lemma checkout_requires_amount_witness :
  create_checkout_session Scenario.cfg_live Scenario.env_stripe_rejects
    (Scenario.json_request (Some "Bearer tok-u1")
       (Scenario.checkout_body (VInt 0))) Scenario.w0 =
    (Ok (jsonify (error_body "amount, success_url and cancel_url are required") 400),
     Scenario.w0).
Proof.
  refine (proj1 (checkout_requires_amount Scenario.cfg_live
                   Scenario.env_stripe_rejects
                   (Scenario.json_request (Some "Bearer tok-u1")
                      (Scenario.checkout_body (VInt 0)))
                   Scenario.w0 0 (VStr "Legal Services Payment")
                   (VStr "https://x/ok") (VStr "https://x/cancel")
                   eq_refl _) eq_refl).
  exists (Scenario.checkout_body (VInt 0)), (VInt 0).
  repeat split; reflexivity.
Defined.

(** C5 as stated fails: a verified request for -5 cents is not turned away
    by the handler; the session request is sent to the payment processor. *)
Lemma negative_amount_reaches_processor :
  ¬ (existsb is_stripe_session_create
       (new_effects Scenario.w0
          (create_checkout_session Scenario.cfg_live Scenario.env_stripe_rejects
             (Scenario.json_request (Some "Bearer tok-u1")
                (Scenario.checkout_body (VInt (-5)))) Scenario.w0).2)
     = false).
Proof. vm_compute. discriminate. Qed.

(** C6 fails on these requests: a checkout body whose amount is [null] or
    the string "abc" makes [int] raise before the [try] block of
    [create_checkout_session], and, with no webhook secret set, the payload
    of an empty JSON object makes [event["type"]] raise after the [try]
    block of [stripe_webhook]; in each the exception leaves the handler. *)
Theorem exceptions_leave_handlers :
  (create_checkout_session Scenario.cfg_live (Scenario.env_at 100 "doc-a" true)
     (Scenario.json_request (Some "Bearer tok-u1")
        (Scenario.checkout_body VNone)) Scenario.w0).1
  = Raise (Exn "TypeError"
             "int() argument must be a string, a bytes-like object or a real number") ∧
  (create_checkout_session Scenario.cfg_live (Scenario.env_at 100 "doc-a" true)
     (Scenario.json_request (Some "Bearer tok-u1")
        (Scenario.checkout_body (VStr "abc"))) Scenario.w0).1
  = Raise (Exn "ValueError" "invalid literal for int() with base 10") ∧
  (stripe_webhook Scenario.cfg_unsigned (Scenario.env_at 100 "doc-a" true)
     (Scenario.delivery "payload-empty-object" None) Scenario.w0).1
  = Raise (Exn "KeyError" "type").
Proof. repeat split; reflexivity. Qed.

(** ** The Bearer-protected endpoints without a credential *)

Lemma checkout_no_bearer_untouched cfg env req w :
  lacks_bearer (Authorization req) →
  (create_checkout_session cfg env req w).2 = w.
Proof.
  intros Hb. unfold create_checkout_session, get_json_or_empty. unfold_m.
  repeat case_match; simplify_eq; simpl; try done;
    rewrite verify_lacks_bearer in * by done; by simplify_eq.
Qed.

Lemma link_token_no_bearer_untouched cfg env req w :
  lacks_bearer (Authorization req) →
  (plaid_create_link_token cfg env req w).2 = w.
Proof.
  intros Hb. unfold plaid_create_link_token. unfold_m.
  destruct (plaid_client cfg); simpl; [|done].
  by rewrite verify_lacks_bearer.
Qed.

Lemma exchange_no_bearer_untouched cfg env req w :
  lacks_bearer (Authorization req) →
  (plaid_exchange_public_token cfg env req w).2 = w.
Proof.
  intros Hb. unfold plaid_exchange_public_token, get_json_or_empty. unfold_m.
  repeat case_match; simplify_eq; simpl; try done;
    rewrite verify_lacks_bearer in * by done; by simplify_eq.
Qed.

Lemma transactions_no_bearer_untouched cfg env req w :
  lacks_bearer (Authorization req) →
  (list_transactions cfg env req w).2 = w.
Proof.
  intros Hb. unfold list_transactions. unfold_m.
  destruct (db cfg); simpl; [|done].
  by rewrite verify_lacks_bearer.
Qed.

(** X24: on a request whose Authorization header is missing or does not
    start with "Bearer ", none of the four protected endpoints reads or
    writes the document store or calls any collaborator (the world is left
    as it was); past their configuration and body checks,
    plaid/create_link_token, plaid/exchange_public_token and transactions
    answer 401 with the error message. *)
Theorem bearer_endpoints_without_credential cfg env req w :
  lacks_bearer (Authorization req) →
  ((create_checkout_session cfg env req w).2 = w ∧
   (plaid_create_link_token cfg env req w).2 = w ∧
   (plaid_exchange_public_token cfg env req w).2 = w ∧
   (list_transactions cfg env req w).2 = w) ∧
  (plaid_client cfg = true →
   (plaid_create_link_token cfg env req w).1 =
     Ok (jsonify (error_body "Missing Authorization header") 401)) ∧
  (plaid_client cfg = true → db cfg = true →
   ∀ public_token, exchange_input req public_token → truthy public_token = true →
   (plaid_exchange_public_token cfg env req w).1 =
     Ok (jsonify (error_body "Missing Authorization header") 401)) ∧
  (db cfg = true →
   (list_transactions cfg env req w).1 =
     Ok (jsonify (error_body "Missing Authorization header") 401)).
Proof.
  intros Hb. split; [|split; [|split]].
  - auto using checkout_no_bearer_untouched, link_token_no_bearer_untouched,
      exchange_no_bearer_untouched, transactions_no_bearer_untouched.
  - intros Hp. unfold plaid_create_link_token. rewrite Hp; simpl.
    unfold_m. by rewrite verify_lacks_bearer.
  - intros Hp Hd public_token (j & Hj & Hpt) Ht.
    unfold plaid_exchange_public_token, get_json_or_empty.
    rewrite Hp, Hd; simpl. unfold_m. rewrite Hj, Hpt, Ht; simpl.
    by rewrite verify_lacks_bearer.
  - intros Hd. unfold list_transactions. rewrite Hd; simpl.
    unfold_m. by rewrite verify_lacks_bearer.
Qed.

Lemma bearer_endpoints_without_credential_witness :
  (list_transactions Scenario.cfg_live (Scenario.env_at 100 "doc-a" true)
     (Scenario.json_request (Some "Basic dTE6cHc=") VNone) Scenario.w0).2
    = Scenario.w0 ∧
  (list_transactions Scenario.cfg_live (Scenario.env_at 100 "doc-a" true)
     (Scenario.json_request (Some "Basic dTE6cHc=") VNone) Scenario.w0).1
    = Ok (jsonify (error_body "Missing Authorization header") 401).
Proof.
  assert (lacks_bearer (Authorization
            (Scenario.json_request (Some "Basic dTE6cHc=") VNone))) as Hb.
  { right. eexists. split; reflexivity. }
  destruct (bearer_endpoints_without_credential Scenario.cfg_live
              (Scenario.env_at 100 "doc-a" true)
              (Scenario.json_request (Some "Basic dTE6cHc=") VNone)
              Scenario.w0 Hb) as ((_ & _ & _ & Hw) & _ & _ & Hr).
  split; [exact Hw | exact (Hr eq_refl)].
Defined.

(** C4 fails on this request: a complete checkout body sent with no
    Authorization header.  [create_checkout_session] answers 400, because
    the credential check sits inside its catch-all [try]; on the same
    request the sibling handlers [plaid_create_link_token] and
    [list_transactions], which wrap the check in a [try] of its own, answer
    401 as the claim says.  Nothing is called and nothing is stored. *)
Theorem checkout_without_credential_answers_400 :
  create_checkout_session Scenario.cfg_live (Scenario.env_at 100 "doc-a" true)
    (Scenario.json_request None (Scenario.checkout_body (VInt 5000)))
    Scenario.w0 =
    (Ok (jsonify (error_body "Missing Authorization header") 400), Scenario.w0) ∧
  plaid_create_link_token Scenario.cfg_live (Scenario.env_at 100 "doc-a" true)
    (Scenario.json_request None (Scenario.checkout_body (VInt 5000)))
    Scenario.w0 =
    (Ok (jsonify (error_body "Missing Authorization header") 401), Scenario.w0) ∧
  list_transactions Scenario.cfg_live (Scenario.env_at 100 "doc-a" true)
    (Scenario.json_request None (Scenario.checkout_body (VInt 5000)))
    Scenario.w0 =
    (Ok (jsonify (error_body "Missing Authorization header") 401), Scenario.w0).
Proof. repeat split; vm_compute; reflexivity. Qed.

(** ** Transaction history *)

#[global] Instance tx_desc_total : Total tx_desc.
Proof.
  intros a b. unfold tx_desc.
  destruct (Z.lt_total (timestamp a.2) (timestamp b.2)) as [?|[?|?]]; auto.
  destruct (total String.le a.1 b.1); auto.
Qed.

#[global] Instance tx_desc_trans : Transitive tx_desc.
Proof.
  intros a b c. unfold tx_desc.
  intros [?|[? ?]] [?|[? ?]]; try (left; lia).
  right. split; [lia|]. by etrans.
Qed.

Lemma tx_desc_timestamp a b : tx_desc a b → timestamp b.2 ≤ timestamp a.2.
Proof. unfold tx_desc. intros [?|[? _]]; lia. Qed.

Lemma StronglySorted_weaken {A} (R R' : relation A) l :
  (∀ x y, R x y → R' x y) → StronglySorted R l → StronglySorted R' l.
Proof.
  intros HR. induction 1 as [|x l Hl IH Hx]; constructor; [done|].
  eapply Forall_impl; [exact Hx|]. auto.
Qed.

Lemma order_by_timestamp_desc_perm coll :
  order_by_timestamp_desc coll ≡ₚ map_to_list coll.
Proof. apply merge_sort_Permutation. Qed.

Lemma order_by_timestamp_desc_sorted coll :
  StronglySorted tx_desc (order_by_timestamp_desc coll).
Proof. apply StronglySorted_merge_sort; apply _. Qed.

(** A document later than every other one is the first of the query. *)
Lemma order_by_timestamp_desc_head coll doc_id tx :
  coll !! doc_id = None →
  (∀ i t, coll !! i = Some t → timestamp t < timestamp tx) →
  order_by_timestamp_desc (<[doc_id := tx]> coll) !! 0%nat = Some (doc_id, tx).
Proof.
  intros Hfresh Hlater.
  pose proof (order_by_timestamp_desc_sorted (<[doc_id := tx]> coll)) as Hs.
  pose proof (order_by_timestamp_desc_perm (<[doc_id := tx]> coll)) as Hp.
  rewrite map_to_list_insert in Hp by done.
  destruct (order_by_timestamp_desc (<[doc_id := tx]> coll)) as [|h l].
  { by apply Permutation_nil_cons in Hp. }
  simpl. f_equal.
  assert (h ∈ (doc_id, tx) :: map_to_list coll) as Hh
    by (rewrite <- Hp; left).
  assert ((doc_id, tx) ∈ h :: l) as Hn by (rewrite Hp; left).
  apply elem_of_cons in Hh as [Hh|Hh]; [done|].
  apply elem_of_cons in Hn as [Hn|Hn]; [done|].
  destruct h as [i t]. apply elem_of_map_to_list in Hh.
  apply Hlater in Hh.
  apply StronglySorted_inv in Hs as [_ Hall].
  rewrite Forall_forall in Hall.
  apply Hall, tx_desc_timestamp in Hn. simpl in Hn. lia.
Qed.

Lemma order_by_timestamp_descending other coll :
  order_by other "timestamp" DESCENDING coll = order_by_timestamp_desc coll.
Proof. reflexivity. Qed.

Lemma transaction_json_listed doc : transaction_json doc = listed_object doc.
Proof. reflexivity. Qed.

Lemma list_transactions_ok cfg env req w id_token uid :
  db cfg = true →
  verifies env req id_token uid →
  firestore_accepts env (TransactionsQuery uid "timestamp" DESCENDING) = true →
  list_transactions cfg env req w =
    (Ok (jsonify (VList (transaction_json <$>
                           order_by_timestamp_desc (user_transactions (store w) uid)))
                 200),
     logged w [VerifyIdToken id_token;
               TransactionsQuery uid "timestamp" DESCENDING]).
Proof.
  intros Hd Hv Hacc. unfold list_transactions, transactions_query.
  rewrite Hd; simpl. unfold_m. rewrite (verify_ok _ _ _ _ _ Hv). simpl.
  rewrite Hacc. rewrite order_by_timestamp_descending.
  unfold logged; simpl. by rewrite <- app_assoc.
Qed.

Lemma fmap_transaction_json (docs : list (string * Transaction)) :
  transaction_json <$> docs = listed_object <$> docs.
Proof.
  induction docs as [|doc docs IH]; [done|].
  rewrite !fmap_cons. by rewrite IH, transaction_json_listed.
Qed.

(** C8: for a verified user the transactions endpoint asks the store for
    that user's transactions ordered on "timestamp", descending, and
    returns what it gets, one JSON object per stored record with the five
    stored fields and the document id: all the records and each once (as
    many as are stored), latest timestamp first.  Once a record with a
    timestamp later than all stored ones has been inserted, the next read
    has its object at position 0. *)
Theorem transactions_latest_first cfg env req w id_token uid :
  db cfg = true →
  verifies env req id_token uid →
  firestore_accepts env (TransactionsQuery uid "timestamp" DESCENDING) = true →
  (∃ docs,
     list_transactions cfg env req w =
       (Ok (jsonify (VList (listed_object <$> docs)) 200),
        logged w [VerifyIdToken id_token;
                  TransactionsQuery uid "timestamp" DESCENDING]) ∧
     docs ≡ₚ map_to_list (user_transactions (store w) uid) ∧
     length docs = size (user_transactions (store w) uid) ∧
     StronglySorted (fun a b => timestamp b.2 ≤ timestamp a.2) docs) ∧
  (∀ w' doc_id tx,
     user_transactions (store w) uid !! doc_id = None →
     (∀ i t, user_transactions (store w) uid !! i = Some t →
             timestamp t < timestamp tx) →
     user_transactions (store w') uid =
       <[doc_id := tx]> (user_transactions (store w) uid) →
     ∃ objects,
       (list_transactions cfg env req w').1 =
         Ok (jsonify (VList objects) 200) ∧
       objects !! 0%nat = Some (listed_object (doc_id, tx)) ∧
       length objects = S (size (user_transactions (store w) uid))).
Proof.
  intros Hd Hv Hacc. split.
  - eexists. rewrite (list_transactions_ok _ _ _ _ _ _ Hd Hv Hacc).
    rewrite fmap_transaction_json.
    split; [done|]. split; [apply order_by_timestamp_desc_perm|]. split.
    + rewrite order_by_timestamp_desc_perm. apply length_map_to_list.
    + eapply StronglySorted_weaken; [|apply order_by_timestamp_desc_sorted].
      apply tx_desc_timestamp.
  - intros w' doc_id tx Hfresh Hlater Hw'.
    eexists. rewrite (list_transactions_ok _ _ _ _ _ _ Hd Hv Hacc). simpl.
    rewrite fmap_transaction_json.
    split; [done|]. rewrite Hw'. split.
    + rewrite list_lookup_fmap.
      by rewrite order_by_timestamp_desc_head.
    + rewrite length_fmap, order_by_timestamp_desc_perm, length_map_to_list.
      by apply map_size_insert_None.
Qed.

Lemma transactions_latest_first_witness :
  (list_transactions Scenario.cfg_live (Scenario.env_at 300 "doc-c" true)
     (Scenario.json_request (Some "Bearer tok-u1") VNone)
     Scenario.after_first_delivery).1 =
    Ok (jsonify
          (VList [VDict [("amount", VInt 5000); ("currency", VStr "usd");
                         ("payment_intent", VStr "pi_1"); ("status", VStr "paid");
                         ("timestamp", VTimestamp 100); ("id", VStr "doc-a")]])
          200) ∧
  (∃ objects,
     (list_transactions Scenario.cfg_live (Scenario.env_at 300 "doc-c" true)
        (Scenario.json_request (Some "Bearer tok-u1") VNone)
        Scenario.after_second_delivery).1 =
       Ok (jsonify (VList objects) 200) ∧
     objects !! 0%nat =
       Some (VDict [("amount", VInt 5000); ("currency", VStr "usd");
                    ("payment_intent", VStr "pi_1"); ("status", VStr "paid");
                    ("timestamp", VTimestamp 200); ("id", VStr "doc-b")]) ∧
     length objects = 2%nat).
Proof.
  assert (verifies (Scenario.env_at 300 "doc-c" true)
            (Scenario.json_request (Some "Bearer tok-u1") VNone) "tok-u1" "u1")
    as Hv.
  { eexists. repeat split; reflexivity. }
  assert (user_transactions (store Scenario.after_first_delivery) "u1" =
          {[ "doc-a" := {| amount := VInt 5000; currency := VStr "usd";
                           payment_intent := VStr "pi_1"; status := VStr "paid";
                           timestamp := 100 |} ]}) as Hfirst.
  { vm_compute. reflexivity. }
  destruct (transactions_latest_first Scenario.cfg_live
              (Scenario.env_at 300 "doc-c" true)
              (Scenario.json_request (Some "Bearer tok-u1") VNone)
              Scenario.after_first_delivery "tok-u1" "u1" eq_refl Hv eq_refl)
    as [(docs & Hr & Hperm & _ & _) Hnext].
  split.
  - rewrite Hr. simpl. rewrite Hfirst, map_to_list_singleton in Hperm.
    apply Permutation_singleton_r in Hperm as ->. reflexivity.
  - destruct (Hnext Scenario.after_second_delivery "doc-b"
                {| amount := VInt 5000; currency := VStr "usd";
                   payment_intent := VStr "pi_1"; status := VStr "paid";
                   timestamp := 200 |}) as (objects & Hr' & Hhead & Hlen').
    + rewrite Hfirst. vm_compute. reflexivity.
    + rewrite Hfirst. intros i t [_ <-]%lookup_singleton_Some. simpl. lia.
    + vm_compute. reflexivity.
    + exists objects. split; [exact Hr'|]. split; [exact Hhead|].
      rewrite Hlen', Hfirst. by rewrite map_size_singleton.
Defined.

(** ** Contact intake *)

Lemma notify_operator_spec cfg env n e m w :
  ∃ es, notify_operator cfg env n e m w = (Ok tt, logged w es) ∧
        no_db_effect es = true.
Proof.
  unfold notify_operator. unfold_m.
  destruct (_ && _).
  - destruct (smtp_send _ _ _ _ _ _ _ _ _).
    + destruct a. by eexists [_].
    + eexists [_; _]. unfold logged; simpl. by rewrite <- app_assoc.
  - exists []. by rewrite logged_nil.
Qed.

Lemma contact_messages_add_env env env' n e m :
  firestore_accepts env' = firestore_accepts env →
  server_timestamp env' = server_timestamp env →
  auto_id env' = auto_id env →
  contact_messages_add env' n e m = contact_messages_add env n e m.
Proof.
  intros Ha Ht Hi. unfold contact_messages_add, firestore_call.
  by rewrite Ha, Ht, Hi.
Qed.

Lemma submit_contact_form_unfold cfg env req w n e m :
  contact_input req n e m →
  truthy n = true → truthy e = true → truthy m = true →
  submit_contact_form cfg env req w =
    match (if db cfg then contact_messages_add env n e m else mret tt) w with
    | (Ok _, w1) =>
        (Ok contact_submitted, (notify_operator cfg env n e m w1).2)
    | (Raise exc, w1) => (Raise exc, w1)
    end.
Proof.
  intros (j & Hj & Hn & He & Hm) Tn Te Tm.
  unfold submit_contact_form, get_json_or_empty.
  unfold mbind, M_bind, bind, lift.
  rewrite Hj. unfold mret at 1, M_ret at 1, ret at 1.
  rewrite Hn, He, Hm. unfold py_all; simpl. rewrite Tn, Te, Tm; simpl.
  destruct (db cfg).
  - destruct (contact_messages_add env n e m w) as [[[]|exc] w1]; [|done].
    by destruct (notify_operator_spec cfg env n e m w1) as (es & -> & _).
  - unfold mret, M_ret, ret.
    by destruct (notify_operator_spec cfg env n e m w) as (es & -> & _).
Qed.

(** C9, as the handler behaves: a submission whose three fields are all
    present (non-empty) is stored first whenever a document store is
    configured and takes the write, and only then is the operator notified;
    with no store configured nothing is persisted.  In both cases the
    response is the success message, and neither the response nor the
    store depends on the notification settings or on what the mail server
    answers. *)
Theorem contact_persists_then_notifies cfg env req w n e m :
  contact_input req n e m →
  truthy n = true → truthy e = true → truthy m = true →
  (db cfg = false →
   ∃ es, submit_contact_form cfg env req w = (Ok contact_submitted, logged w es) ∧
         no_db_effect es = true) ∧
  (db cfg = true →
   firestore_accepts env
     (ContactMessagesAdd (auto_id env)
        (Build_ContactMessage n e m (server_timestamp env))) = true →
   contact_messages (store w) !! auto_id env = None →
   ∃ w' es,
     submit_contact_form cfg env req w = (Ok contact_submitted, w') ∧
     contact_messages (store w') =
       <[auto_id env := Build_ContactMessage n e m (server_timestamp env)]>
         (contact_messages (store w)) ∧
     new_effects w w' =
       ContactMessagesAdd (auto_id env)
         (Build_ContactMessage n e m (server_timestamp env)) :: es ∧
     no_db_effect es = true) ∧
  (∀ cfg' env',
     db cfg' = db cfg →
     firestore_accepts env' = firestore_accepts env →
     server_timestamp env' = server_timestamp env →
     auto_id env' = auto_id env →
     (submit_contact_form cfg' env' req w).1 = (submit_contact_form cfg env req w).1 ∧
     store (submit_contact_form cfg' env' req w).2 =
       store (submit_contact_form cfg env req w).2).
Proof.
  intros Hin Tn Te Tm. split; [|split].
  - intros Hd. rewrite (submit_contact_form_unfold _ _ _ _ _ _ _ Hin Tn Te Tm).
    rewrite Hd. unfold mret, M_ret, ret.
    destruct (notify_operator_spec cfg env n e m w) as (es & -> & Hes).
    by exists es.
  - intros Hd Hacc Hfresh.
    rewrite (submit_contact_form_unfold _ _ _ _ _ _ _ Hin Tn Te Tm).
    rewrite Hd. unfold contact_messages_add. unfold_m.
    rewrite Hacc. simpl. rewrite Hfresh.
    match goal with
    | |- context [notify_operator cfg env n e m ?w1] =>
        destruct (notify_operator_spec cfg env n e m w1) as (es & -> & Hes)
    end.
    eexists _, es. split; [done|]. split; [done|]. split; [|done].
    unfold new_effects, logged; simpl.
    by rewrite <- app_assoc, drop_app_length.
  - intros cfg' env' Hd Ha Ht Hi.
    rewrite !(submit_contact_form_unfold _ _ _ _ _ _ _ Hin Tn Te Tm).
    rewrite Hd, (contact_messages_add_env env env') by done.
    assert (∀ w1, store (notify_operator cfg' env' n e m w1).2 =
                  store (notify_operator cfg env n e m w1).2) as Hnotify.
    { intros w1.
      destruct (notify_operator_spec cfg env n e m w1) as (es & -> & _).
      by destruct (notify_operator_spec cfg' env' n e m w1) as (es' & -> & _). }
    destruct (db cfg).
    + destruct (contact_messages_add env n e m w) as [[[]|exc] w1]; [|done].
      split; [done|]. apply Hnotify.
    + unfold mret, M_ret, ret. split; [done|]. apply Hnotify.
Qed.

Lemma contact_persists_then_notifies_witness :
  ∃ w' es,
    submit_contact_form Scenario.cfg_mail (Scenario.env_at 100 "doc-a" false)
      (Scenario.json_request None Scenario.contact_body) Scenario.w0 =
      (Ok contact_submitted, w') ∧
    contact_messages (store w') =
      <["doc-a" := Build_ContactMessage (VStr "Ada") (VStr "ada@example.test")
                     (VStr "Please call back") 100]>
        (contact_messages (store Scenario.w0)) ∧
    new_effects Scenario.w0 w' =
      ContactMessagesAdd "doc-a"
        (Build_ContactMessage (VStr "Ada") (VStr "ada@example.test")
           (VStr "Please call back") 100) :: es ∧
    no_db_effect es = true.
Proof.
  assert (contact_input (Scenario.json_request None Scenario.contact_body)
            (VStr "Ada") (VStr "ada@example.test") (VStr "Please call back"))
    as Hin.
  { exists Scenario.contact_body. repeat split; reflexivity. }
  destruct (contact_persists_then_notifies Scenario.cfg_mail
              (Scenario.env_at 100 "doc-a" false)
              (Scenario.json_request None Scenario.contact_body) Scenario.w0
              (VStr "Ada") (VStr "ada@example.test") (VStr "Please call back")
              Hin eq_refl eq_refl eq_refl) as (_ & Hstore & _).
  apply Hstore; [reflexivity | reflexivity | vm_compute; reflexivity].
Defined.

(** C9 as stated fails: with no document store configured, a complete
    submission is answered with the success message and no message is
    persisted. *)
Lemma contact_without_store_not_persisted :
  (submit_contact_form Scenario.cfg_no_db (Scenario.env_at 100 "doc-a" false)
     (Scenario.json_request None Scenario.contact_body) Scenario.w0).1
    = Ok contact_submitted ∧
  ¬ ∃ doc_id msg,
      contact_messages
        (store (submit_contact_form Scenario.cfg_no_db
                  (Scenario.env_at 100 "doc-a" false)
                  (Scenario.json_request None Scenario.contact_body)
                  Scenario.w0).2) !! doc_id = Some msg.
Proof.
  split; [reflexivity|]. intros (doc_id & msg & H).
  assert (contact_messages
            (store (submit_contact_form Scenario.cfg_no_db
                      (Scenario.env_at 100 "doc-a" false)
                      (Scenario.json_request None Scenario.contact_body)
                      Scenario.w0).2) = ∅) as Hempty
    by (vm_compute; reflexivity).
  rewrite Hempty, lookup_empty in H. discriminate.
Qed.

(** ** A small logic for what handlers leave in place *)

Section Preserves.
Context (R : relation Store) `{!PreOrder R}.

Lemma preserves_ret {A} (a : A) : preserves R (mret a : M A).
Proof. intros w. simpl. reflexivity. Qed.

Lemma preserves_raise {A} (e : exn) : preserves R (raise e : M A).
Proof. intros w. simpl. reflexivity. Qed.

Lemma preserves_lift {A} (r : result A) : preserves R (lift r).
Proof. intros w. simpl. reflexivity. Qed.

Lemma preserves_emit (e : effect) : preserves R (emit e).
Proof. intros w. simpl. reflexivity. Qed.

Lemma preserves_get_store : preserves R get_store.
Proof. intros w. simpl. reflexivity. Qed.

Lemma preserves_bind {A B} (m : M A) (k : A → M B) :
  preserves R m → (∀ a, preserves R (k a)) → preserves R (m ≫= k).
Proof.
  intros Hm Hk w. unfold mbind, M_bind, bind.
  specialize (Hm w). destruct (m w) as [[a|e] w1]; simpl in *; [|done].
  etrans; [exact Hm|]. apply Hk.
Qed.

Lemma preserves_try_except {A} (m : M A) (h : exn → M A) :
  preserves R m → (∀ e, preserves R (h e)) → preserves R (try_except m h).
Proof.
  intros Hm Hh w. unfold try_except.
  specialize (Hm w). destruct (m w) as [[a|e] w1]; simpl in *; [done|].
  etrans; [exact Hm|]. apply Hh.
Qed.

Lemma preserves_try_or_return {A} (m : M A) (h : exn → M Response)
    (k : A → M Response) :
  preserves R m → (∀ e, preserves R (h e)) → (∀ a, preserves R (k a)) →
  preserves R (try_or_return m h k).
Proof.
  intros Hm Hh Hk w. unfold try_or_return.
  specialize (Hm w). destruct (m w) as [[a|e] w1]; simpl in *;
    (etrans; [exact Hm|]); [apply Hk | apply Hh].
Qed.

Lemma preserves_firestore_call env e : preserves R (firestore_call env e).
Proof.
  unfold firestore_call. apply preserves_bind; [apply preserves_emit|].
  intros _. destruct (firestore_accepts env e);
    [apply preserves_ret | apply preserves_raise].
Qed.

Lemma preserves_verify env req : preserves R (_verify_firebase_id_token env req).
Proof.
  unfold _verify_firebase_id_token. cbv zeta.
  destruct (_ || _); [apply preserves_raise|].
  destruct (_ !! _); [|apply preserves_raise].
  apply preserves_bind; [apply preserves_emit|]. intros _. apply preserves_lift.
Qed.

Lemma preserves_get_json_or_empty req : preserves R (get_json_or_empty req).
Proof.
  unfold get_json_or_empty. apply preserves_bind; [apply preserves_lift|].
  intros j. apply preserves_ret.
Qed.

Lemma preserves_users_get env uid : preserves R (users_get env uid).
Proof.
  unfold users_get. apply preserves_bind; [apply preserves_firestore_call|].
  intros _. apply preserves_bind; [apply preserves_get_store|].
  intros s. apply preserves_ret.
Qed.

Lemma preserves_transactions_query env uid field dir :
  preserves R (transactions_query env uid field dir).
Proof.
  unfold transactions_query.
  apply preserves_bind; [apply preserves_firestore_call|].
  intros _. apply preserves_bind; [apply preserves_get_store|].
  intros s. apply preserves_ret.
Qed.

Lemma preserves_notify_operator cfg env n e m :
  preserves R (notify_operator cfg env n e m).
Proof.
  intros w. destruct (notify_operator_spec cfg env n e m w) as (es & -> & _).
  simpl. reflexivity.
Qed.

End Preserves.

(** One step of a proof that a handler preserves [R]: the rule for the
    construct at the head of the computation. *)
Ltac preserves_rule l := apply l; try (solve [apply _]).

Ltac preserves_step :=
  first
    [ preserves_rule preserves_ret | preserves_rule preserves_raise
    | preserves_rule preserves_lift | preserves_rule preserves_emit
    | preserves_rule preserves_get_store | preserves_rule preserves_verify
    | preserves_rule preserves_get_json_or_empty
    | preserves_rule preserves_users_get
    | preserves_rule preserves_transactions_query
    | preserves_rule preserves_firestore_call
    | preserves_rule preserves_notify_operator
    | preserves_rule preserves_bind; [|intros ?]
    | preserves_rule preserves_try_except; [|intros ?]
    | preserves_rule preserves_try_or_return; [|intros ?|intros ?]
    | progress cbv zeta
    | case_match ].

Ltac preserves_tac := repeat preserves_step.

#[global] Instance append_only_preorder : PreOrder append_only.
Proof.
  split.
  - intros s. by repeat split.
  - intros s1 s2 s3 (Hu & Hc & Ht) (Hu' & Hc' & Ht'). split; [|split].
    + by rewrite Hu'.
    + by rewrite Hc'.
    + intros uid. etrans; [apply Ht | apply Ht'].
Qed.

#[global] Instance contact_only_preorder : PreOrder contact_only.
Proof.
  split.
  - intros s. by repeat split.
  - intros s1 s2 s3 (Hu & Ht & Hc) (Hu' & Ht' & Hc'). split; [|split].
    + by rewrite Hu'.
    + by rewrite Ht'.
    + by etrans.
Qed.

#[global] Instance users_only_preorder : PreOrder users_only.
Proof.
  split.
  - intros s. by split.
  - intros s1 s2 s3 (Ht & Hc) (Ht' & Hc'). split.
    + by rewrite Ht'.
    + by rewrite Hc'.
Qed.

(** ** Handlers that only read *)

(** X1: [health], [create_checkout_session], [plaid_create_link_token] and
    [list_transactions] never change the document store, whatever the
    request, the configuration and the answers of the collaborators. *)
Theorem read_only_endpoints cfg env req :
  preserves eq health ∧
  preserves eq (create_checkout_session cfg env req) ∧
  preserves eq (plaid_create_link_token cfg env req) ∧
  preserves eq (list_transactions cfg env req).
Proof.
  split; [|split; [|split]].
  - unfold health. preserves_tac.
  - unfold create_checkout_session. preserves_tac.
  - unfold plaid_create_link_token. preserves_tac.
  - unfold list_transactions. preserves_tac.
Qed.

(** ** The identity verifier *)

Lemma verify_spec env req w :
  _verify_firebase_id_token env req w =
    (verify_result env req, logged w (verify_calls req)).
Proof.
  unfold _verify_firebase_id_token, verify_result, verify_calls, id_token_of.
  cbv zeta. destruct (_ || _).
  - unfold raise. by rewrite logged_nil.
  - destruct (_ !! _); unfold_m; [done|]. by rewrite logged_nil.
Qed.

Lemma verifies_id_token env req id_token uid :
  verifies env req id_token uid ↔
  id_token_of req = Ok id_token ∧ verify_id_token env id_token = Ok uid.
Proof.
  unfold verifies, id_token_of. cbv zeta. split.
  - intros (h & -> & Hp & Ht & Hv). simpl. rewrite Hp, Ht.
    destruct h; [discriminate|]. done.
  - intros [Hid Hv]. destruct (Authorization req) as [h|]; simpl in Hid; [|done].
    destruct (String.prefix "Bearer " h) eqn:Hp;
      [|by rewrite orb_true_r in Hid].
    rewrite orb_false_r in Hid.
    destruct (negb (negb (String.eqb h ""))); [done|].
    destruct (split_space h !! 1%nat) as [t|] eqn:Ht; [|done].
    exists h. by simplify_eq.
Qed.

Lemma split_go_word t rest cur :
  contains_space t = false →
  split_go cur (t +:+ String " " rest) =
    String.rev (String.rev_app t cur) :: split_go "" rest.
Proof.
  revert cur. induction t as [|c t IH]; intros cur Hns.
  - reflexivity.
  - simpl in Hns. apply orb_false_elim in Hns as [Hc Ht].
    change (String c t +:+ String " " rest)
      with (String c (t +:+ String " " rest)).
    simpl. rewrite Hc. by rewrite IH.
Qed.

Lemma split_go_last t cur :
  contains_space t = false →
  split_go cur t = [String.rev (String.rev_app t cur)].
Proof.
  revert cur. induction t as [|c t IH]; intros cur Hns.
  - reflexivity.
  - simpl in Hns. apply orb_false_elim in Hns as [Hc Ht].
    simpl. rewrite Hc. by rewrite IH.
Qed.

Lemma rev_app_rev_app s a b :
  String.rev_app (String.rev_app s a) b = String.rev_app a (s +:+ b).
Proof.
  revert a b. induction s as [|c s IH]; intros a b.
  - reflexivity.
  - simpl. rewrite IH. reflexivity.
Qed.

Lemma string_rev_rev_app t : String.rev (String.rev_app t "") = t.
Proof.
  unfold String.rev. rewrite rev_app_rev_app. simpl.
  induction t as [|c t IH]; [done|].
  change (String c t +:+ "") with (String c (t +:+ "")). by rewrite IH.
Qed.

(** X2: the ID token is the text between "Bearer " and the next space (or
    the end of the header); [_verify_firebase_id_token] hands exactly that
    text to the identity provider, once, and returns or raises what the
    provider does. *)
Theorem bearer_token_extraction env req w t rest :
  Authorization req = Some ("Bearer " +:+ t +:+ rest) →
  contains_space t = false →
  rest = "" ∨ (∃ r, rest = String " " r) →
  _verify_firebase_id_token env req w =
    (verify_id_token env t, logged w [VerifyIdToken t]).
Proof.
  intros Hh Hns Hrest. rewrite verify_spec.
  assert (id_token_of req = Ok t) as Hid.
  { unfold id_token_of. rewrite Hh. cbv zeta.
    change ("Bearer " +:+ t +:+ rest)
      with (String "B" (String "e" (String "a" (String "r" (String "e"
             (String "r" (String " " (t +:+ rest)))))))).
    simpl.
    assert (∀ s, String.prefix "" s = true) as -> by (by intros []).
    simpl.
    destruct Hrest as [-> | [r ->]].
    - assert (t +:+ "" = t) as ->.
      { clear. induction t as [|c t IH]; [done|].
        change (String c t +:+ "") with (String c (t +:+ "")). by rewrite IH. }
      rewrite split_go_last by done. simpl. by rewrite string_rev_rev_app.
    - rewrite split_go_word by done. simpl. by rewrite string_rev_rev_app. }
  unfold verify_result, verify_calls. by rewrite Hid.
Qed.

Lemma bearer_token_extraction_witness :
  _verify_firebase_id_token (Scenario.env_at 100 "doc-a" true)
    (Scenario.json_request (Some "Bearer tok-u1 trailing words") VNone)
    Scenario.w0 =
    (Ok "u1", logged Scenario.w0 [VerifyIdToken "tok-u1"]).
Proof.
  exact (bearer_token_extraction (Scenario.env_at 100 "doc-a" true)
           (Scenario.json_request (Some "Bearer tok-u1 trailing words") VNone)
           Scenario.w0 "tok-u1" " trailing words" eq_refl eq_refl
           (or_intror (ex_intro _ "trailing words" eq_refl))).
Defined.

(** ** A credential the identity provider turns down *)

(** X3: when the header carries a token and the identity provider rejects
    it, plaid/create_link_token, plaid/exchange_public_token and
    transactions answer 401 with the provider's message and
    create-checkout-session answers 400 with it; the call to the provider
    is the only call made and the store is left as it was. *)
Theorem rejected_credential cfg env req w id_token e :
  id_token_of req = Ok id_token →
  verify_id_token env id_token = Raise e →
  (plaid_client cfg = true →
   plaid_create_link_token cfg env req w =
     (Ok (jsonify (error_body (str_exc e)) 401),
      logged w [VerifyIdToken id_token])) ∧
  (plaid_client cfg = true → db cfg = true →
   ∀ public_token, exchange_input req public_token → truthy public_token = true →
   plaid_exchange_public_token cfg env req w =
     (Ok (jsonify (error_body (str_exc e)) 401),
      logged w [VerifyIdToken id_token])) ∧
  (db cfg = true →
   list_transactions cfg env req w =
     (Ok (jsonify (error_body (str_exc e)) 401),
      logged w [VerifyIdToken id_token])) ∧
  (stripe cfg = true →
   ∀ amount description success_url cancel_url,
     checkout_input env req amount description success_url cancel_url →
     py_all [VInt amount; success_url; cancel_url] = true →
     create_checkout_session cfg env req w =
       (Ok (jsonify (error_body (str_exc e)) 400),
        logged w [VerifyIdToken id_token])).
Proof.
  intros Hid He.
  assert (∀ w, _verify_firebase_id_token env req w =
               (Raise e, logged w [VerifyIdToken id_token])) as Hv.
  { intros w0. rewrite verify_spec. unfold verify_result, verify_calls.
    by rewrite Hid, He. }
  split; [|split; [|split]].
  - intros Hp. unfold plaid_create_link_token. rewrite Hp; simpl.
    unfold_m. by rewrite Hv.
  - intros Hp Hd public_token (j & Hj & Hpt) Ht.
    unfold plaid_exchange_public_token, get_json_or_empty.
    rewrite Hp, Hd; simpl. unfold_m. rewrite Hj, Hpt, Ht; simpl.
    by rewrite Hv.
  - intros Hd. unfold list_transactions. rewrite Hd; simpl.
    unfold_m. by rewrite Hv.
  - intros Hs amount description success_url cancel_url
           (j & a & Hj & Ha & Hi & Hde & Hsu & Hcu) Hall.
    unfold create_checkout_session, get_json_or_empty. rewrite Hs; simpl.
    unfold_m. rewrite Hj, Ha, Hi, Hde, Hsu, Hcu. rewrite Hall; simpl.
    by rewrite Hv.
Qed.

Lemma rejected_credential_witness :
  list_transactions Scenario.cfg_live (Scenario.env_at 100 "doc-a" true)
    (Scenario.json_request (Some "Bearer expired") VNone) Scenario.w0 =
    (Ok (jsonify (error_body "invalid ID token") 401),
     logged Scenario.w0 [VerifyIdToken "expired"]).
Proof.
  destruct (rejected_credential Scenario.cfg_live
              (Scenario.env_at 100 "doc-a" true)
              (Scenario.json_request (Some "Bearer expired") VNone)
              Scenario.w0 "expired"
              (Exn "InvalidIdTokenError" "invalid ID token") eq_refl eq_refl)
    as (_ & _ & Hlist & _).
  exact (Hlist eq_refl).
Defined.

(** ** Plaid link tokens *)

(** X4: for a verified user, [plaid_create_link_token] asks Plaid for a
    link token whose [client_user_id] is the verified uid, and answers 200
    with Plaid's object, or 400 with Plaid's message when the call raises;
    the identity check and that one Plaid call are all it does. *)
Theorem link_token_outcome cfg env req w id_token uid :
  plaid_client cfg = true →
  verifies env req id_token uid →
  py_getitem (link_token_request uid) "user"
    = Ok (VDict [("client_user_id", VStr uid)]) ∧
  plaid_create_link_token cfg env req w =
    (Ok (match plaid_link_token_create env (link_token_request uid) with
         | Ok response => jsonify response 200
         | Raise exc => jsonify (error_body (str_exc exc)) 400
         end),
     logged w [VerifyIdToken id_token;
               PlaidLinkTokenCreate (link_token_request uid)]).
Proof.
  intros Hp Hv. split; [done|].
  unfold plaid_create_link_token. rewrite Hp; simpl. unfold_m.
  rewrite (verify_ok _ _ _ _ _ Hv). fold (link_token_request uid).
  destruct (plaid_link_token_create env (link_token_request uid));
    simpl; unfold logged; simpl; by rewrite <- app_assoc.
Qed.

Lemma link_token_outcome_witness :
  plaid_create_link_token Scenario.cfg_live (Scenario.env_at 100 "doc-a" true)
    (Scenario.json_request (Some "Bearer tok-u1") VNone) Scenario.w0 =
    (Ok (jsonify (VDict [("link_token", VStr "link-sandbox-1")]) 200),
     logged Scenario.w0 [VerifyIdToken "tok-u1";
                         PlaidLinkTokenCreate (link_token_request "u1")]).
Proof.
  refine (proj2 (link_token_outcome Scenario.cfg_live
                   (Scenario.env_at 100 "doc-a" true)
                   (Scenario.json_request (Some "Bearer tok-u1") VNone)
                   Scenario.w0 "tok-u1" "u1" eq_refl _)).
  eexists. repeat split; reflexivity.
Defined.

(** ** Exchanging a public token *)

Lemma exchange_unfold cfg env req w public_token id_token uid exchange_request :
  plaid_client cfg = true → db cfg = true →
  exchange_input req public_token → truthy public_token = true →
  verifies env req id_token uid →
  plaid_exchange_request env public_token = Ok exchange_request →
  let w1 := logged w [VerifyIdToken id_token; PlaidExchangeRequest public_token;
                      PlaidItemPublicTokenExchange exchange_request] in
  plaid_exchange_public_token cfg env req w =
    match plaid_item_public_token_exchange env exchange_request with
    | Raise exc => (Ok (jsonify (error_body (str_exc exc)) 400), w1)
    | Ok exchange_response =>
        match py_getitem exchange_response "access_token" with
        | Raise exc => (Ok (jsonify (error_body (str_exc exc)) 400), w1)
        | Ok access_token =>
            let call := UsersSetMerge uid [("plaidAccessToken", access_token)] in
            if firestore_accepts env call then
              (Ok (jsonify (VDict [("message", VStr "Bank account linked")]) 200),
               logged (with_access_token w1 uid access_token) [call])
            else
              (Ok (jsonify (error_body "the document store refused the call") 400),
               logged w1 [call])
        end
    end.
Proof.
  intros Hp Hd (j & Hj & Hpt) Ht Hv Hreq w1.
  unfold plaid_exchange_public_token, get_json_or_empty, users_set_merge.
  rewrite Hp, Hd; simpl. unfold_m. rewrite Hj, Hpt, Ht; simpl.
  rewrite (verify_ok _ _ _ _ _ Hv). simpl. rewrite Hreq.
  assert (logged (logged w [VerifyIdToken id_token]) [PlaidExchangeRequest public_token] =
          logged w [VerifyIdToken id_token; PlaidExchangeRequest public_token]) as Hl
    by (by rewrite logged_logged).
  destruct (plaid_item_public_token_exchange env exchange_request)
    as [resp|exc]; simpl.
  - destruct (py_getitem resp "access_token") as [at_|exc]; simpl.
    + destruct (firestore_accepts env _); simpl;
        unfold w1, logged, with_access_token; simpl;
        by rewrite <- !app_assoc.
    + unfold w1, logged; simpl; by rewrite <- !app_assoc.
  - unfold w1, logged; simpl; by rewrite <- !app_assoc.
Qed.

(** X5: a token-exchange request without a (non-empty) [public_token] is
    answered with 400 before the credential is looked at: nothing is
    called and nothing is stored. *)
Theorem exchange_requires_public_token cfg env req w public_token :
  plaid_client cfg = true → db cfg = true →
  exchange_input req public_token → truthy public_token = false →
  plaid_exchange_public_token cfg env req w =
    (Ok (jsonify (error_body "public_token is required") 400), w).
Proof.
  intros Hp Hd (j & Hj & Hpt) Ht.
  unfold plaid_exchange_public_token, get_json_or_empty.
  rewrite Hp, Hd; simpl. unfold_m. by rewrite Hj, Hpt, Ht.
Qed.

Lemma exchange_requires_public_token_witness :
  plaid_exchange_public_token Scenario.cfg_live (Scenario.env_at 100 "doc-a" true)
    (Scenario.json_request (Some "Bearer tok-u1") (VDict [("public_token", VStr "")]))
    Cases.w_users =
    (Ok (jsonify (error_body "public_token is required") 400), Cases.w_users).
Proof.
  apply (exchange_requires_public_token Scenario.cfg_live
           (Scenario.env_at 100 "doc-a" true)
           (Scenario.json_request (Some "Bearer tok-u1")
              (VDict [("public_token", VStr "")]))
           Cases.w_users (VStr "")); try reflexivity.
  eexists. split; reflexivity.
Defined.

(** X6: a successful exchange stores the access token under
    "plaidAccessToken" in the document of the verified user with merge
    semantics: every other field of that document is kept, the documents of
    other users, the transactions and the contact messages are untouched,
    and the response is "Bank account linked". *)
Theorem exchange_links_account cfg env req w public_token id_token uid
    exchange_request exchange_response access_token :
  plaid_client cfg = true → db cfg = true →
  exchange_input req public_token → truthy public_token = true →
  verifies env req id_token uid →
  plaid_exchange_request env public_token = Ok exchange_request →
  plaid_item_public_token_exchange env exchange_request = Ok exchange_response →
  py_getitem exchange_response "access_token" = Ok access_token →
  firestore_accepts env (UsersSetMerge uid [("plaidAccessToken", access_token)])
    = true →
  ∃ w' doc,
    plaid_exchange_public_token cfg env req w =
      (Ok (jsonify (VDict [("message", VStr "Bank account linked")]) 200), w') ∧
    users (store w') !! uid = Some doc ∧
    dict_lookup "plaidAccessToken" doc = Some access_token ∧
    (∀ k, k ≠ "plaidAccessToken" →
          dict_lookup k doc = dict_lookup k (default [] (users (store w) !! uid))) ∧
    (∀ uid', uid' ≠ uid → users (store w') !! uid' = users (store w) !! uid') ∧
    users_only (store w) (store w').
Proof.
  intros Hp Hd Hin Ht Hv Hreq Hex Hat Hacc.
  rewrite (exchange_unfold _ _ _ _ _ _ _ _ Hp Hd Hin Ht Hv Hreq).
  rewrite Hex, Hat. cbv zeta. rewrite Hacc.
  eexists _, _. split; [done|]. simpl. split; [apply lookup_insert_eq|].
  split; [apply dict_lookup_set_eq|]. split; [|split; [|done]].
  - intros k Hk. by apply dict_lookup_set_ne.
  - intros uid' Hne. by apply lookup_insert_ne.
Qed.

Lemma exchange_links_account_witness :
  ∃ w' doc,
    plaid_exchange_public_token Scenario.cfg_live (Scenario.env_at 100 "doc-a" true)
      (Scenario.json_request (Some "Bearer tok-u1") Cases.exchange_body)
      Cases.w_users =
      (Ok (jsonify (VDict [("message", VStr "Bank account linked")]) 200), w') ∧
    users (store w') !! "u1" = Some doc ∧
    dict_lookup "plaidAccessToken" doc = Some (VStr "access-sandbox-1") ∧
    (∀ k, k ≠ "plaidAccessToken" →
          dict_lookup k doc =
          dict_lookup k (default [] (users (store Cases.w_users) !! "u1"))) ∧
    (∀ uid', uid' ≠ "u1" →
             users (store w') !! uid' = users (store Cases.w_users) !! uid') ∧
    users_only (store Cases.w_users) (store w').
Proof.
  apply (exchange_links_account Scenario.cfg_live
           (Scenario.env_at 100 "doc-a" true)
           (Scenario.json_request (Some "Bearer tok-u1") Cases.exchange_body)
           Cases.w_users (VStr "public-sandbox-1") "tok-u1" "u1"
           (VDict [("public_token", VStr "public-sandbox-1")])
           (VDict [("access_token", VStr "access-sandbox-1")])
           (VStr "access-sandbox-1")); try reflexivity.
  - eexists. split; reflexivity.
  - eexists. repeat split; reflexivity.
Defined.

(** X7: when the exchange fails inside the [try] block (Plaid raises, its
    response has no "access_token", or Firestore refuses the write), the
    handler answers 400 with an error body, Plaid's message when it was
    Plaid that raised, and the store is left as it was. *)
Theorem exchange_failure_keeps_store cfg env req w public_token id_token uid
    exchange_request :
  plaid_client cfg = true → db cfg = true →
  exchange_input req public_token → truthy public_token = true →
  verifies env req id_token uid →
  plaid_exchange_request env public_token = Ok exchange_request →
  ((∃ exc, plaid_item_public_token_exchange env exchange_request = Raise exc) ∨
   (∃ exchange_response,
      plaid_item_public_token_exchange env exchange_request = Ok exchange_response ∧
      ((∃ exc, py_getitem exchange_response "access_token" = Raise exc) ∨
       ∃ access_token,
         py_getitem exchange_response "access_token" = Ok access_token ∧
         firestore_accepts env
           (UsersSetMerge uid [("plaidAccessToken", access_token)]) = false))) →
  ∃ msg,
    (plaid_exchange_public_token cfg env req w).1 =
      Ok (jsonify (error_body msg) 400) ∧
    store (plaid_exchange_public_token cfg env req w).2 = store w ∧
    (∀ exc, plaid_item_public_token_exchange env exchange_request = Raise exc →
            msg = str_exc exc).
Proof.
  intros Hp Hd Hin Ht Hv Hreq Hfail.
  rewrite (exchange_unfold _ _ _ _ _ _ _ _ Hp Hd Hin Ht Hv Hreq).
  destruct Hfail as [[exc ->] | (resp & -> & [[exc ->] | (at_ & -> & Hacc)])].
  - eexists. split; [done|]. split; [done|]. by intros ? [= <-].
  - eexists. split; [done|]. split; [done|]. done.
  - cbv zeta. rewrite Hacc. eexists. split; [done|]. split; [done|]. done.
Qed.

Lemma exchange_failure_keeps_store_witness :
  ∃ msg,
    (plaid_exchange_public_token Scenario.cfg_live Cases.env_plaid_down
       (Scenario.json_request (Some "Bearer tok-u1") Cases.exchange_body)
       Cases.w_users).1 =
      Ok (jsonify (error_body msg) 400) ∧
    store (plaid_exchange_public_token Scenario.cfg_live Cases.env_plaid_down
             (Scenario.json_request (Some "Bearer tok-u1") Cases.exchange_body)
             Cases.w_users).2 = store Cases.w_users ∧
    (∀ exc, plaid_item_public_token_exchange Cases.env_plaid_down
              (VDict [("public_token", VStr "public-sandbox-1")]) = Raise exc →
            msg = str_exc exc).
Proof.
  apply (exchange_failure_keeps_store Scenario.cfg_live Cases.env_plaid_down
           (Scenario.json_request (Some "Bearer tok-u1") Cases.exchange_body)
           Cases.w_users (VStr "public-sandbox-1") "tok-u1" "u1"
           (VDict [("public_token", VStr "public-sandbox-1")])); try reflexivity.
  - eexists. split; reflexivity.
  - eexists. repeat split; reflexivity.
  - left. by eexists.
Defined.

Lemma exchange_store_cases cfg env req w :
  store (plaid_exchange_public_token cfg env req w).2 = store w ∨
  ∃ uid access_token,
    store (plaid_exchange_public_token cfg env req w).2 =
      store (with_access_token w uid access_token).
Proof.
  unfold plaid_exchange_public_token, get_json_or_empty, users_set_merge.
  unfold_m.
  repeat case_match; simplify_eq; simpl; try (by left);
    rewrite verify_spec in *; simplify_eq; simpl; try (by left).
  all: right; by eexists _, _.
Qed.

Lemma cached_email_with_access_token w uid access_token u :
  cached_email (store (with_access_token w uid access_token)) u =
    cached_email (store w) u.
Proof.
  unfold cached_email; simpl. destruct (decide (uid = u)) as [->|Hne].
  - rewrite lookup_insert_eq.
    rewrite dict_lookup_set_ne by done.
    by destruct (users (store w) !! u).
  - by rewrite lookup_insert_ne.
Qed.

(** X8: whatever the request and whatever the collaborators answer,
    [plaid_exchange_public_token] leaves the transactions and the contact
    messages alone and changes no field of any user document other than
    "plaidAccessToken"; in particular the email that
    [create_checkout_session] pre-fills is the same before and after. *)
Theorem exchange_touches_only_access_token cfg env req w :
  users_only (store w) (store (plaid_exchange_public_token cfg env req w).2) ∧
  (∀ u k, k ≠ "plaidAccessToken" →
     dict_lookup k
       (default [] (users (store (plaid_exchange_public_token cfg env req w).2) !! u))
     = dict_lookup k (default [] (users (store w) !! u))) ∧
  (∀ u, cached_email (store (plaid_exchange_public_token cfg env req w).2) u
        = cached_email (store w) u).
Proof.
  destruct (exchange_store_cases cfg env req w) as [-> | (uid & at_ & ->)].
  { by repeat split. }
  split; [by split|]. split.
  - intros u k Hk. simpl. destruct (decide (uid = u)) as [->|Hne].
    + rewrite lookup_insert_eq. simpl. by apply dict_lookup_set_ne.
    + by rewrite lookup_insert_ne.
  - intros u. apply cached_email_with_access_token.
Qed.

(** ** What a webhook delivery can do to the store *)

Lemma webhook_store_cases cfg env req w :
  store (stripe_webhook cfg env req w).2 = store w ∨
  ∃ user tx,
    user_transactions (store w) user !! auto_id env = None ∧
    timestamp tx = server_timestamp env ∧
    store (stripe_webhook cfg env req w).2 =
      store (with_transaction w user (auto_id env) tx).
Proof.
  unfold stripe_webhook, construct_webhook_event, handle_event, transactions_add.
  unfold_m.
  repeat case_match; simplify_eq; simpl; try (by left).
  all: right; eexists _, _; (split; [|split]); [ | | reflexivity];
    [simpl in *; eassumption | reflexivity].
Qed.

Lemma user_transactions_with_transaction_ne w user doc_id tx uid :
  uid ≠ user →
  user_transactions (store (with_transaction w user doc_id tx)) uid =
    user_transactions (store w) uid.
Proof.
  intros Hne. unfold user_transactions; simpl. by rewrite lookup_insert_ne.
Qed.

(** X9: whatever the delivery and whatever the collaborators answer,
    [stripe_webhook] only ever appends: user documents and contact messages
    are untouched, every transaction stored before is still there
    unchanged, no user's collection grows by more than one record, and a
    record that is new sits under the generated document id and carries
    the store's commit time. *)
Theorem webhook_append_only cfg env req w :
  append_only (store w) (store (stripe_webhook cfg env req w).2) ∧
  (∀ uid,
     size (user_transactions (store (stripe_webhook cfg env req w).2) uid)
     ≤ S (size (user_transactions (store w) uid)))%nat ∧
  (∀ uid doc_id tx,
     user_transactions (store (stripe_webhook cfg env req w).2) uid !! doc_id
       = Some tx →
     user_transactions (store w) uid !! doc_id = None →
     doc_id = auto_id env ∧ timestamp tx = server_timestamp env).
Proof.
  destruct (webhook_store_cases cfg env req w)
    as [-> | (user & tx & Hfresh & Hts & ->)].
  { split; [reflexivity|]. split; [intros; lia|]. intros ??? H1 H2. congruence. }
  split; [|split].
  - split; [done|]. split; [done|]. intros uid.
    destruct (decide (uid = user)) as [->|Hne].
    + rewrite user_transactions_with_transaction. by apply insert_subseteq.
    + by rewrite user_transactions_with_transaction_ne.
  - intros uid. destruct (decide (uid = user)) as [->|Hne].
    + rewrite user_transactions_with_transaction.
      by rewrite map_size_insert_None.
    + rewrite user_transactions_with_transaction_ne by done. lia.
  - intros uid doc_id tx' Hnew Hold.
    destruct (decide (uid = user)) as [->|Hne].
    + rewrite user_transactions_with_transaction in Hnew.
      apply lookup_insert_Some in Hnew as [[<- <-] | [_ Hnew]]; [done|congruence].
    + rewrite user_transactions_with_transaction_ne in Hnew by done. congruence.
Qed.

(** X10: a completed session whose "client_reference_id" is absent, null
    or empty is not rejected: its transaction is stored in the collection
    of the user "unknown" and the delivery is acknowledged with 200. *)
Theorem webhook_unattributed cfg env req w event session ref a c p st :
  stripe cfg = true → db cfg = true →
  webhook_event cfg env req = Ok event →
  completed_event event session →
  session_fields session ref a c p st →
  truthy ref = false →
  let tx := {| amount := a; currency := c; payment_intent := p; status := st;
               timestamp := server_timestamp env |} in
  store_takes env (user_transactions (store w) "unknown") "unknown" tx →
  ∃ w',
    stripe_webhook cfg env req w =
      (Ok {| resp_body := Empty; resp_status := 200 |}, w') ∧
    user_transactions (store w') "unknown" !! auto_id env = Some tx ∧
    (∀ uid, uid ≠ "unknown" →
       user_transactions (store w') uid = user_transactions (store w) uid).
Proof.
  intros Hs Hd Hev Hc Hf Href tx [Hacc Hfresh].
  rewrite stripe_webhook_unfold, Hev by done.
  erewrite handle_event_completed; [| done | done | | done | done].
  - eexists. split; [done|]. split.
    + unfold user_transactions at 1; simpl. rewrite lookup_insert_eq. simpl.
      apply lookup_insert_eq.
    + intros uid Hne. unfold user_transactions at 1; simpl.
      by rewrite lookup_insert_ne.
  - unfold attributed_user. by rewrite Href.
Qed.

Lemma webhook_unattributed_witness :
  ∃ w',
    stripe_webhook Scenario.cfg_live Cases.env_anonymous
      (Scenario.delivery "payload-anonymous" (Some "t=1,v1=good")) Scenario.w0 =
      (Ok {| resp_body := Empty; resp_status := 200 |}, w') ∧
    user_transactions (store w') "unknown" !! "doc-x" =
      Some {| amount := VInt 1200; currency := VStr "usd";
              payment_intent := VStr "pi_3"; status := VStr "paid";
              timestamp := 150 |} ∧
    (∀ uid, uid ≠ "unknown" →
       user_transactions (store w') uid =
       user_transactions (store Scenario.w0) uid).
Proof.
  apply (webhook_unattributed Scenario.cfg_live Cases.env_anonymous
           (Scenario.delivery "payload-anonymous" (Some "t=1,v1=good"))
           Scenario.w0 Cases.anonymous_event
           (VDict [("id", VStr "cs_3"); ("amount_total", VInt 1200);
                   ("currency", VStr "usd"); ("payment_intent", VStr "pi_3");
                   ("payment_status", VStr "paid")])
           VNone (VInt 1200) (VStr "usd") (VStr "pi_3") (VStr "paid"));
    try reflexivity.
  - split; [reflexivity|]. eexists. split; reflexivity.
  - repeat split; reflexivity.
  - split; [reflexivity | vm_compute; reflexivity].
Defined.

(** ** More on the transaction history *)

(** X11: what [list_transactions] answers depends on the store only
    through the collection of the user the credential verifies as: two
    stores that agree on that collection give the same response, whatever
    else they hold. *)
Theorem list_transactions_isolation cfg env req w1 w2 :
  (∀ id_token uid,
     verifies env req id_token uid →
     user_transactions (store w1) uid = user_transactions (store w2) uid) →
  (list_transactions cfg env req w1).1 = (list_transactions cfg env req w2).1.
Proof.
  intros Hsame. unfold list_transactions, transactions_query.
  destruct (db cfg); simpl; [|done].
  unfold_m. rewrite !verify_spec.
  destruct (verify_result env req) as [uid|e] eqn:Hv; [|done].
  simpl. destruct (firestore_accepts env (TransactionsQuery uid "timestamp" DESCENDING)); [|done].
  simpl. unfold verify_result in Hv.
  destruct (id_token_of req) as [id_token|] eqn:Hid; [|done].
  by rewrite (Hsame id_token uid) by by apply verifies_id_token.
Qed.

Lemma list_transactions_isolation_witness :
  (list_transactions Scenario.cfg_live (Scenario.env_at 300 "doc-c" true)
     (Scenario.json_request (Some "Bearer tok-u1") VNone) Scenario.w0).1 =
  (list_transactions Scenario.cfg_live (Scenario.env_at 300 "doc-c" true)
     (Scenario.json_request (Some "Bearer tok-u1") VNone)
     (with_transaction Scenario.w0 "u2" "doc-z"
        {| amount := VInt 700; currency := VStr "usd";
           payment_intent := VStr "pi_9"; status := VStr "paid";
           timestamp := 50 |})).1.
Proof.
  apply (list_transactions_isolation Scenario.cfg_live
           (Scenario.env_at 300 "doc-c" true)
           (Scenario.json_request (Some "Bearer tok-u1") VNone)).
  intros id_token uid (h & Hh & _ & Ht & Hv).
  injection Hh as <-. vm_compute in Ht. injection Ht as <-.
  vm_compute in Hv. injection Hv as <-.
  vm_compute. reflexivity.
Defined.

(** X12: reading after a delivery.  Once a completed session attributed
    to [user] has been stored, the history of that user is the earlier
    history plus the new record, and the history of every other user is
    the same list as before. *)
Theorem history_after_delivery cfg env1 req1 env2 req2 w user pi tx id_token uid :
  stripe cfg = true → db cfg = true →
  completed_delivery cfg env1 req1 user pi tx →
  store_takes env1 (user_transactions (store w) user) user tx →
  verifies env2 req2 id_token uid →
  firestore_accepts env2 (TransactionsQuery uid "timestamp" DESCENDING) = true →
  ∃ w1 docs docs',
    stripe_webhook cfg env1 req1 w =
      (Ok {| resp_body := Empty; resp_status := 200 |}, w1) ∧
    (list_transactions cfg env2 req2 w).1 =
      Ok (jsonify (VList (transaction_json <$> docs)) 200) ∧
    (list_transactions cfg env2 req2 w1).1 =
      Ok (jsonify (VList (transaction_json <$> docs')) 200) ∧
    (uid = user → docs' ≡ₚ (auto_id env1, tx) :: docs) ∧
    (uid ≠ user → docs' = docs).
Proof.
  intros Hs Hd Hdel Htake Hv Hacc.
  assert (∃ w1, stripe_webhook cfg env1 req1 w =
                  (Ok {| resp_body := Empty; resp_status := 200 |}, w1) ∧
                store w1 = store (with_transaction w user (auto_id env1) tx))
    as (w1 & Hr & Hw1).
  { destruct Hdel as (event & session & ref & a & c & st & Hev & Hc & Hf & Hu & ->).
    destruct Htake as [Ha Hfresh].
    rewrite stripe_webhook_unfold, Hev by done.
    erewrite handle_event_completed by done. by eexists. }
  exists w1. eexists _, _. split; [done|].
  rewrite !(list_transactions_ok _ _ _ _ _ _ Hd Hv Hacc). simpl.
  split; [done|]. split; [done|]. rewrite Hw1. split.
  - intros ->. rewrite user_transactions_with_transaction.
    rewrite !order_by_timestamp_desc_perm.
    apply map_to_list_insert, Htake.
  - intros Hne. by rewrite user_transactions_with_transaction_ne.
Qed.

Lemma history_after_delivery_witness :
  ∃ w1 docs docs',
    stripe_webhook Scenario.cfg_live (Scenario.env_at 100 "doc-a" true)
      (Scenario.delivery "payload-paid" (Some "t=1,v1=good")) Scenario.w0 =
      (Ok {| resp_body := Empty; resp_status := 200 |}, w1) ∧
    (list_transactions Scenario.cfg_live (Scenario.env_at 300 "doc-c" true)
       (Scenario.json_request (Some "Bearer tok-u1") VNone) Scenario.w0).1 =
      Ok (jsonify (VList (transaction_json <$> docs)) 200) ∧
    (list_transactions Scenario.cfg_live (Scenario.env_at 300 "doc-c" true)
       (Scenario.json_request (Some "Bearer tok-u1") VNone) w1).1 =
      Ok (jsonify (VList (transaction_json <$> docs')) 200) ∧
    ("u1" = "u1" →
     docs' ≡ₚ ("doc-a", {| amount := VInt 5000; currency := VStr "usd";
                          payment_intent := VStr "pi_1"; status := VStr "paid";
                          timestamp := 100 |}) :: docs) ∧
    ("u1" ≠ "u1" → docs' = docs).
Proof.
  apply (history_after_delivery Scenario.cfg_live
           (Scenario.env_at 100 "doc-a" true)
           (Scenario.delivery "payload-paid" (Some "t=1,v1=good"))
           (Scenario.env_at 300 "doc-c" true)
           (Scenario.json_request (Some "Bearer tok-u1") VNone)
           Scenario.w0 "u1" "pi_1" _ "tok-u1" "u1"); try reflexivity.
  - exists Scenario.paid_event, (Scenario.paid_session (VStr "u1")),
      (VStr "u1"), (VInt 5000), (VStr "usd"), (VStr "paid").
    repeat split; try reflexivity. eexists; split; reflexivity.
  - split; [reflexivity | vm_compute; reflexivity].
  - eexists. repeat split; reflexivity.
Defined.

(** X13: the objects of a listing are the stored documents, one per
    document id: each object holds the five stored fields and the document
    id under "id", the ids are pairwise distinct, a document is listed
    exactly when it is stored for that user, and a user without
    transactions gets the empty list with status 200. *)
Theorem listing_documents cfg env req w id_token uid :
  db cfg = true →
  verifies env req id_token uid →
  firestore_accepts env (TransactionsQuery uid "timestamp" DESCENDING) = true →
  ∃ docs,
    (list_transactions cfg env req w).1 =
      Ok (jsonify
            (VList ((fun doc =>
                       VDict [("amount", amount doc.2);
                              ("currency", currency doc.2);
                              ("payment_intent", payment_intent doc.2);
                              ("status", status doc.2);
                              ("timestamp", VTimestamp (timestamp doc.2));
                              ("id", VStr doc.1)]) <$> docs))
            200) ∧
    NoDup docs.*1 ∧
    (∀ doc_id tx,
       (doc_id, tx) ∈ docs ↔ user_transactions (store w) uid !! doc_id = Some tx) ∧
    (transactions (store w) !! uid = None → docs = []).
Proof.
  intros Hd Hv Hacc. eexists.
  rewrite (list_transactions_ok _ _ _ _ _ _ Hd Hv Hacc). simpl.
  split; [done|]. split; [|split].
  - rewrite order_by_timestamp_desc_perm. apply NoDup_fst_map_to_list.
  - intros doc_id tx. rewrite order_by_timestamp_desc_perm.
    apply elem_of_map_to_list.
  - intros Hnone. unfold user_transactions. rewrite Hnone. simpl.
    unfold order_by_timestamp_desc. by rewrite map_to_list_empty.
Qed.

Lemma listing_documents_witness :
  ∃ docs,
    (list_transactions Scenario.cfg_live (Scenario.env_at 300 "doc-c" true)
       (Scenario.json_request (Some "Bearer tok-u1") VNone)
       Scenario.after_second_delivery).1 =
      Ok (jsonify
            (VList ((fun doc =>
                       VDict [("amount", amount doc.2);
                              ("currency", currency doc.2);
                              ("payment_intent", payment_intent doc.2);
                              ("status", status doc.2);
                              ("timestamp", VTimestamp (timestamp doc.2));
                              ("id", VStr doc.1)]) <$> docs))
            200) ∧
    NoDup docs.*1 ∧
    ("doc-a", {| amount := VInt 5000; currency := VStr "usd";
                 payment_intent := VStr "pi_1"; status := VStr "paid";
                 timestamp := 100 |}) ∈ docs ∧
    ("doc-b", {| amount := VInt 5000; currency := VStr "usd";
                 payment_intent := VStr "pi_1"; status := VStr "paid";
                 timestamp := 200 |}) ∈ docs.
Proof.
  destruct (listing_documents Scenario.cfg_live
              (Scenario.env_at 300 "doc-c" true)
              (Scenario.json_request (Some "Bearer tok-u1") VNone)
              Scenario.after_second_delivery "tok-u1" "u1" eq_refl
              (ex_intro _ "Bearer tok-u1"
                 (conj eq_refl (conj eq_refl (conj eq_refl eq_refl))))
              eq_refl) as (docs & Hr & Hnodup & Hin & _).
  exists docs. split; [exact Hr|]. split; [exact Hnodup|].
  split; apply Hin; vm_compute; reflexivity.
Defined.

(** ** More on contact intake *)

(** X14: a submission in which name, email or message is missing or empty
    is answered with 400 and nothing else happens: no message is stored
    and no mail is attempted, whatever is configured. *)
Theorem contact_requires_fields cfg env req w n e m :
  contact_input req n e m →
  py_all [n; e; m] = false →
  submit_contact_form cfg env req w =
    (Ok (jsonify (error_body "name, email and message are required") 400), w).
Proof.
  intros (j & Hj & Hn & He & Hm) Hall.
  unfold submit_contact_form, get_json_or_empty. unfold_m.
  rewrite Hj, Hn, He, Hm. by rewrite Hall.
Qed.

Lemma contact_requires_fields_witness :
  submit_contact_form Scenario.cfg_mail (Scenario.env_at 100 "doc-a" true)
    (Scenario.json_request None
       (VDict [("name", VStr "Ada"); ("message", VStr "Please call back")]))
    Scenario.w0 =
    (Ok (jsonify (error_body "name, email and message are required") 400),
     Scenario.w0).
Proof.
  apply (contact_requires_fields Scenario.cfg_mail
           (Scenario.env_at 100 "doc-a" true)
           (Scenario.json_request None
              (VDict [("name", VStr "Ada"); ("message", VStr "Please call back")]))
           Scenario.w0 (VStr "Ada") VNone (VStr "Please call back"));
    [|reflexivity].
  eexists. repeat split; reflexivity.
Defined.

Lemma notify_operator_calls cfg env n e m w :
  notify_operator cfg env n e m w =
    (Ok tt, logged w (notification_calls cfg env n e m)).
Proof.
  unfold notify_operator, notification_calls, smtp_configured. cbv zeta.
  destruct (_ && _).
  - unfold_m. destruct (smtp_send _ _ _ _ _ _ _ _ _) as [[]|exc]; [done|].
    unfold logged; simpl. by rewrite <- app_assoc.
  - unfold mret, M_ret, ret. by rewrite logged_nil.
Qed.

(** X15: for a complete submission, mail is attempted exactly when
    CONTACT_EMAIL, SMTP_HOST, SMTP_PORT, SMTP_USER and SMTP_PASSWORD are
    all non-empty, with those settings and the submitted fields, after the
    message has been stored; when the attempt raises, one line
    "Failed to send contact email: ..." is printed and nothing else
    follows. *)
Theorem contact_notification cfg env req w n e m :
  contact_input req n e m →
  truthy n = true → truthy e = true → truthy m = true →
  (db cfg = true →
   firestore_accepts env
     (ContactMessagesAdd (auto_id env)
        (Build_ContactMessage n e m (server_timestamp env))) = true ∧
   contact_messages (store w) !! auto_id env = None) →
  new_effects w (submit_contact_form cfg env req w).2 =
    (if db cfg
     then [ContactMessagesAdd (auto_id env)
             (Build_ContactMessage n e m (server_timestamp env))]
     else [])
    ++ notification_calls cfg env n e m ∧
  existsb is_smtp_send (new_effects w (submit_contact_form cfg env req w).2)
    = smtp_configured cfg.
Proof.
  intros Hin Tn Te Tm Hdb.
  assert (existsb is_smtp_send (notification_calls cfg env n e m)
          = smtp_configured cfg) as Hsmtp.
  { unfold notification_calls. destruct (smtp_configured cfg); [|done].
    simpl. done. }
  rewrite (submit_contact_form_unfold _ _ _ _ _ _ _ Hin Tn Te Tm).
  destruct (db cfg).
  - destruct Hdb as [Hacc Hfresh]; [done|].
    unfold contact_messages_add. unfold_m. rewrite Hacc. simpl. rewrite Hfresh.
    rewrite notify_operator_calls.
    assert (∀ l, new_effects w
                   (logged {| store := {| users := users (store w);
                                         transactions := transactions (store w);
                                         contact_messages :=
                                           <[auto_id env :=
                                               Build_ContactMessage n e m
                                                 (server_timestamp env)]>
                                             (contact_messages (store w)) |};
                              trace := trace w ++
                                [ContactMessagesAdd (auto_id env)
                                   (Build_ContactMessage n e m (server_timestamp env))] |}
                      l) =
                 [ContactMessagesAdd (auto_id env)
                    (Build_ContactMessage n e m (server_timestamp env))] ++ l) as Hnew.
    { intros l. unfold new_effects, logged; simpl.
      by rewrite <- app_assoc, drop_app_length. }
    simpl. rewrite Hnew. split; [done|]. simpl. exact Hsmtp.
  - unfold mret, M_ret, ret. rewrite notify_operator_calls. simpl.
    rewrite new_effects_logged. by split.
Qed.

Lemma contact_notification_witness :
  new_effects Scenario.w0
    (submit_contact_form Scenario.cfg_mail (Scenario.env_at 100 "doc-a" false)
       (Scenario.json_request None Scenario.contact_body) Scenario.w0).2 =
    [ContactMessagesAdd "doc-a"
       (Build_ContactMessage (VStr "Ada") (VStr "ada@example.test")
          (VStr "Please call back") 100);
     SmtpSend "smtp.example.test" "587" "mailer" "secret" "office@example.test"
       (VStr "Ada") (VStr "ada@example.test") (VStr "Please call back");
     Stdout "Failed to send contact email: Connection refused"].
Proof.
  refine (proj1 (contact_notification Scenario.cfg_mail
                   (Scenario.env_at 100 "doc-a" false)
                   (Scenario.json_request None Scenario.contact_body)
                   Scenario.w0 (VStr "Ada") (VStr "ada@example.test")
                   (VStr "Please call back") _ eq_refl eq_refl eq_refl _)).
  - exists Scenario.contact_body. repeat split; reflexivity.
  - intros _. split; [reflexivity | vm_compute; reflexivity].
Defined.

Lemma contact_store_cases cfg env req w :
  store (submit_contact_form cfg env req w).2 = store w ∨
  ∃ msg,
    contact_messages (store w) !! auto_id env = None ∧
    contact_timestamp msg = server_timestamp env ∧
    store (submit_contact_form cfg env req w).2 =
      {| users := users (store w);
         transactions := transactions (store w);
         contact_messages := <[auto_id env := msg]> (contact_messages (store w)) |}.
Proof.
  unfold submit_contact_form, get_json_or_empty, contact_messages_add.
  unfold_m.
  repeat case_match; simplify_eq; simpl; try (by left).
  all: try match goal with
       | H : notify_operator _ _ _ _ _ _ = _ |- _ =>
           rewrite notify_operator_calls in H; simplify_eq; simpl
       end; try (by left).
  all: right; eexists; (split; [|split]); [ | | reflexivity];
    [simpl in *; eassumption | reflexivity].
Qed.

(** X16: whatever the submission and whatever the collaborators answer,
    [submit_contact_form] leaves user documents and transactions alone,
    keeps every stored contact message, and adds at most one: a new
    message sits under the generated document id and carries the store's
    commit time. *)
Theorem contact_append_only cfg env req w :
  contact_only (store w) (store (submit_contact_form cfg env req w).2) ∧
  (size (contact_messages (store (submit_contact_form cfg env req w).2))
   ≤ S (size (contact_messages (store w))))%nat ∧
  (∀ doc_id msg,
     contact_messages (store (submit_contact_form cfg env req w).2) !! doc_id
       = Some msg →
     contact_messages (store w) !! doc_id = None →
     doc_id = auto_id env ∧ contact_timestamp msg = server_timestamp env).
Proof.
  destruct (contact_store_cases cfg env req w)
    as [-> | (msg & Hfresh & Hts & ->)].
  { split; [reflexivity|]. split; [lia|]. intros ?? H1 H2. congruence. }
  simpl. split; [|split].
  - split; [done|]. split; [done|]. by apply insert_subseteq.
  - by rewrite map_size_insert_None.
  - intros doc_id msg' Hnew Hold.
    apply lookup_insert_Some in Hnew as [[<- <-] | [_ Hnew]]; [done|congruence].
Qed.

(** ** More on checkout *)

(** X17: a checkout request without a (non-empty) success_url or
    cancel_url is answered with 400 before the credential is looked at,
    whatever the amount: nothing is called and nothing is stored. *)
Theorem checkout_requires_redirect_urls cfg env req w amount description
    success_url cancel_url :
  stripe cfg = true →
  checkout_input env req amount description success_url cancel_url →
  truthy success_url = false ∨ truthy cancel_url = false →
  create_checkout_session cfg env req w =
    (Ok (jsonify (error_body "amount, success_url and cancel_url are required") 400),
     w).
Proof.
  intros Hs Hin Hurl. eapply checkout_incomplete; [done..|].
  unfold py_all; simpl. destruct Hurl as [-> | ->];
    by rewrite ?andb_false_r.
Qed.

Lemma checkout_requires_redirect_urls_witness :
  create_checkout_session Scenario.cfg_live (Scenario.env_at 100 "doc-a" true)
    (Scenario.json_request (Some "Bearer tok-u1")
       (VDict [("amount", VInt 5000); ("success_url", VStr "https://x/ok")]))
    Scenario.w0 =
    (Ok (jsonify (error_body "amount, success_url and cancel_url are required") 400),
     Scenario.w0).
Proof.
  apply (checkout_requires_redirect_urls Scenario.cfg_live
           (Scenario.env_at 100 "doc-a" true)
           (Scenario.json_request (Some "Bearer tok-u1")
              (VDict [("amount", VInt 5000); ("success_url", VStr "https://x/ok")]))
           Scenario.w0 5000 (VStr "Legal Services Payment")
           (VStr "https://x/ok") VNone eq_refl).
  - eexists _, _. repeat split; reflexivity.
  - by right.
Defined.

(** X18: a verified request with a complete body makes exactly one session
    request, with no retry: the response is 200 with the processor's URL,
    or 400 with the processor's message when the call raises.  The
    session's "customer_email" is the email cached in the user's document,
    and [None] when there is no document, no such field or no store. *)
Theorem checkout_outcome cfg env req w amount description success_url
    cancel_url id_token uid :
  stripe cfg = true →
  checkout_input env req amount description success_url cancel_url →
  py_all [VInt amount; success_url; cancel_url] = true →
  verifies env req id_token uid →
  (db cfg = true → firestore_accepts env (UsersGet uid) = true) →
  ∃ kwargs,
    (create_checkout_session cfg env req w).1 =
      Ok (match stripe_session_create env kwargs with
          | Ok url => jsonify (VDict [("url", url)]) 200
          | Raise exc => jsonify (error_body (str_exc exc)) 400
          end) ∧
    filter (fun e => is_stripe_session_create e = true)
      (new_effects w (create_checkout_session cfg env req w).2)
      = [StripeSessionCreate kwargs] ∧
    dict_lookup "customer_email" kwargs =
      Some (if db cfg then cached_email (store w) uid else VNone) ∧
    dict_lookup "success_url" kwargs = Some success_url ∧
    dict_lookup "cancel_url" kwargs = Some cancel_url ∧
    dict_lookup "mode" kwargs = Some (VStr "payment").
Proof.
  intros Hs Hin Hall Hv Hacc. eexists.
  rewrite (checkout_calls_processor _ _ _ _ _ _ _ _ _ _ Hs Hin Hall Hv Hacc).
  simpl. split; [done|]. rewrite new_effects_logged.
  split; [|done]. by destruct (db cfg).
Qed.

Lemma checkout_outcome_witness :
  ∃ kwargs,
    (create_checkout_session Scenario.cfg_live Scenario.env_stripe_rejects
       (Scenario.json_request (Some "Bearer tok-u1")
          (Scenario.checkout_body (VInt 5000))) Cases.w_users).1 =
      Ok (jsonify (error_body "Invalid integer") 400) ∧
    dict_lookup "customer_email" kwargs = Some (VStr "u1@example.test").
Proof.
  destruct (checkout_outcome Scenario.cfg_live Scenario.env_stripe_rejects
              (Scenario.json_request (Some "Bearer tok-u1")
                 (Scenario.checkout_body (VInt 5000)))
              Cases.w_users 5000 (VStr "Legal Services Payment")
              (VStr "https://x/ok") (VStr "https://x/cancel") "tok-u1" "u1"
              eq_refl
              (ex_intro _ (Scenario.checkout_body (VInt 5000))
                 (ex_intro _ (VInt 5000)
                    (conj eq_refl (conj eq_refl (conj eq_refl
                       (conj eq_refl (conj eq_refl eq_refl)))))))
              eq_refl
              (ex_intro _ "Bearer tok-u1"
                 (conj eq_refl (conj eq_refl (conj eq_refl eq_refl))))
              (fun _ => eq_refl))
    as (kwargs & Hr & _ & Hemail & _).
  exists kwargs. split; [exact Hr | exact Hemail].
Defined.

(** X19: the email lookup is optional only while the store answers: when
    Firestore refuses the read, the handler answers 400 with an error body
    and the payment processor is never called. *)
Theorem checkout_lookup_failure cfg env req w amount description success_url
    cancel_url id_token uid :
  stripe cfg = true → db cfg = true →
  checkout_input env req amount description success_url cancel_url →
  py_all [VInt amount; success_url; cancel_url] = true →
  verifies env req id_token uid →
  firestore_accepts env (UsersGet uid) = false →
  ∃ msg,
    create_checkout_session cfg env req w =
      (Ok (jsonify (error_body msg) 400),
       logged w [VerifyIdToken id_token; UsersGet uid]).
Proof.
  intros Hs Hd (j & a & Hj & Ha & Hi & Hde & Hsu & Hcu) Hall Hv Hacc.
  unfold create_checkout_session, get_json_or_empty, users_get. rewrite Hs; simpl.
  unfold_m. rewrite Hj, Ha, Hi, Hde, Hsu, Hcu. rewrite Hall; simpl.
  rewrite (verify_ok _ _ _ _ _ Hv). rewrite Hd. simpl. rewrite Hacc. simpl.
  eexists. unfold logged; simpl. by rewrite <- app_assoc.
Qed.

Lemma checkout_lookup_failure_witness :
  ∃ msg,
    create_checkout_session Scenario.cfg_live Cases.env_store_down
      (Scenario.json_request (Some "Bearer tok-u1")
         (Scenario.checkout_body (VInt 5000))) Cases.w_users =
      (Ok (jsonify (error_body msg) 400),
       logged Cases.w_users [VerifyIdToken "tok-u1"; UsersGet "u1"]).
Proof.
  apply (checkout_lookup_failure Scenario.cfg_live Cases.env_store_down
           (Scenario.json_request (Some "Bearer tok-u1")
              (Scenario.checkout_body (VInt 5000)))
           Cases.w_users 5000 (VStr "Legal Services Payment")
           (VStr "https://x/ok") (VStr "https://x/cancel") "tok-u1" "u1");
    try reflexivity.
  - eexists _, _. repeat split; reflexivity.
  - eexists. repeat split; reflexivity.
Defined.

(** ** Start-up *)

Lemma plaid_env_member e :
  existsb (String.eqb e) ["sandbox"; "development"; "production"]
  = bool_decide (is_Some (assoc_lookup e plaid_environments)).
Proof.
  unfold plaid_environments. cbn [existsb assoc_lookup].
  rewrite (String.eqb_sym e "sandbox"), (String.eqb_sym e "development"),
    (String.eqb_sym e "production").
  destruct (String.eqb "sandbox" e); cbn [orb];
    [by rewrite bool_decide_eq_true_2 by eauto|].
  destruct (String.eqb "development" e); cbn [orb];
    [by rewrite bool_decide_eq_true_2 by eauto|].
  destruct (String.eqb "production" e); cbn [orb];
    [by rewrite bool_decide_eq_true_2 by eauto|].
  symmetry. apply bool_decide_eq_false. by intros [? ?].
Qed.

Lemma configure_plaid_cases s :
  configure_plaid s =
    if sdks_imported s then
      match assoc_lookup (plaid_env_name s) plaid_environments with
      | Some host =>
          match PlaidApi s host (environ s !! "PLAID_CLIENT_ID")
                  (environ s !! "PLAID_SECRET") with
          | Ok _ => Ok (Some host)
          | Raise e => Raise e
          end
      | None => Raise (Exn "ValueError"
                         "PLAID_ENV must be one of sandbox, development, production")
      end
    else Ok None.
Proof.
  unfold configure_plaid, plaid_env_name. destruct (sdks_imported s); [|done].
  cbv zeta. rewrite plaid_env_member.
  destruct (assoc_lookup _ plaid_environments) as [host|] eqn:Hh.
  - rewrite bool_decide_eq_true_2 by eauto. simpl.
    by destruct (PlaidApi s host _ _).
  - rewrite bool_decide_eq_false_2; [done|]. by intros [? ?].
Qed.

Lemma configure_firebase_ok s b :
  configure_firebase s = Ok b → b = sdks_imported s.
Proof.
  unfold configure_firebase. destruct (sdks_imported s); [|by intros [= <-]].
  unfold mbind, result_bind, mret, result_ret.
  intros H. repeat case_match; by simplify_eq.
Qed.

(** X20: the handles of a started app are all there or all missing.  When
    [create_app] returns, [stripe], [plaid_client] and [db] are present
    exactly when the SDK imports went through, so the handlers never see
    the payment SDK without the document store or the other way round. *)
Theorem started_app_handles s app :
  create_app s = Ok app →
  stripe (app_config s app) = sdks_imported s ∧
  plaid_client (app_config s app) = sdks_imported s ∧
  db (app_config s app) = sdks_imported s.
Proof.
  unfold create_app. cbv zeta. rewrite configure_plaid_cases.
  unfold mbind, result_bind, mret, result_ret.
  intros H.
  destruct (sdks_imported s) eqn:Hi.
  - destruct (assoc_lookup _ _) as [host|]; [|done].
    destruct (PlaidApi s host _ _); [|done].
    destruct (configure_firebase s) as [b|] eqn:Hf; [|done].
    apply configure_firebase_ok in Hf. simplify_eq. simpl.
    rewrite Hi. split; [done|]. split; [|done].
    first [done | apply bool_decide_eq_true; eauto].
  - destruct (configure_firebase s) as [b|] eqn:Hf; [|done].
    apply configure_firebase_ok in Hf. simplify_eq. simpl.
    rewrite Hi. split; [done|]. split; [|done].
    first [done | apply bool_decide_eq_false; by intros [? ?]].
Qed.

Lemma started_app_handles_witness :
  ∃ app,
    create_app (Cases.startup true
                  {[ "PLAID_ENV" := "Sandbox";
                     "FIREBASE_SERVICE_ACCOUNT_FILE" := "/etc/secrets/firebase.json" ]})
      = Ok app ∧
    stripe (app_config (Cases.startup true
                  {[ "PLAID_ENV" := "Sandbox";
                     "FIREBASE_SERVICE_ACCOUNT_FILE" := "/etc/secrets/firebase.json" ]})
              app) = true ∧
    db (app_config (Cases.startup true
                  {[ "PLAID_ENV" := "Sandbox";
                     "FIREBASE_SERVICE_ACCOUNT_FILE" := "/etc/secrets/firebase.json" ]})
          app) = true.
Proof.
  eexists. split; [vm_compute; reflexivity|].
  match goal with
  | |- stripe (app_config ?s ?app) = _ ∧ _ =>
      destruct (started_app_handles s app) as (Hs & _ & Hd);
        [vm_compute; reflexivity|]
  end.
  split; [exact Hs | exact Hd].
Defined.

Lemma lower_ascii_idem c : lower_ascii (lower_ascii c) = lower_ascii c.
Proof. by destruct c as [[] [] [] [] [] [] [] []]. Qed.

Lemma py_lower_idem s : py_lower (py_lower s) = py_lower s.
Proof.
  induction s as [|c s IH]; simpl; [done|].
  by rewrite lower_ascii_idem, IH.
Qed.

(** X21: with the SDKs imported, [create_app] accepts PLAID_ENV exactly
    when its lower-cased value (default "sandbox") is "sandbox",
    "development" or "production": any other value makes it raise
    [ValueError], a started app talks to the host of that name, and the
    letter case of the variable makes no difference. *)
Theorem plaid_env_checked s :
  sdks_imported s = true →
  (assoc_lookup (plaid_env_name s) plaid_environments = None →
   create_app s =
     Raise (Exn "ValueError"
              "PLAID_ENV must be one of sandbox, development, production")) ∧
  (∀ app, create_app s = Ok app →
     is_Some (app_plaid_client app) ∧
     app_plaid_client app = assoc_lookup (plaid_env_name s) plaid_environments) ∧
  (∀ v, environ s !! "PLAID_ENV" = Some v →
     create_app (with_environ s (<["PLAID_ENV" := py_lower v]> (environ s)))
     = create_app s).
Proof.
  intros Hi. split; [|split].
  - intros Hnone. unfold create_app. cbv zeta.
    rewrite configure_plaid_cases, Hi, Hnone. done.
  - intros app. unfold create_app. cbv zeta.
    rewrite configure_plaid_cases, Hi.
    unfold mbind, result_bind, mret, result_ret.
    destruct (assoc_lookup _ _) as [host|]; [|done].
    destruct (PlaidApi s host _ _); [|done].
    destruct (configure_firebase s); [|done].
    intros [= <-]. simpl. eauto.
  - intros v Hv. unfold create_app, configure_firebase. cbv zeta.
    rewrite !configure_plaid_cases. unfold plaid_env_name. simpl.
    rewrite lookup_insert_eq, Hv. simpl. rewrite py_lower_idem.
    by rewrite !lookup_insert_ne by done.
Qed.

Lemma plaid_env_checked_witness :
  create_app (Cases.startup true {[ "PLAID_ENV" := "staging" ]}) =
    Raise (Exn "ValueError"
             "PLAID_ENV must be one of sandbox, development, production").
Proof.
  exact (proj1 (plaid_env_checked
                  (Cases.startup true {[ "PLAID_ENV" := "staging" ]}) eq_refl)
           eq_refl).
Defined.

(** X22: with the SDKs imported, [create_app] does not start without
    Firebase credentials: a started app had a non-empty
    FIREBASE_SERVICE_ACCOUNT_JSON, or a FIREBASE_SERVICE_ACCOUNT_FILE that
    names an existing path; and when the Plaid client could be built and
    neither is there, [create_app] raises [RuntimeError]. *)
Theorem firebase_credentials_required s :
  sdks_imported s = true →
  (∀ app, create_app s = Ok app →
     truthy_str (environ s !! "FIREBASE_SERVICE_ACCOUNT_JSON") = true ∨
     (truthy_str (environ s !! "FIREBASE_SERVICE_ACCOUNT_FILE") = true ∧
      path_exists s (default "" (environ s !! "FIREBASE_SERVICE_ACCOUNT_FILE"))
        = true)) ∧
  (∀ host, configure_plaid s = Ok host →
     truthy_str (environ s !! "FIREBASE_SERVICE_ACCOUNT_JSON") = false →
     truthy_str (environ s !! "FIREBASE_SERVICE_ACCOUNT_FILE")
       && path_exists s (default "" (environ s !! "FIREBASE_SERVICE_ACCOUNT_FILE"))
       = false →
     create_app s =
       Raise (Exn "RuntimeError"
                "Firebase service account credentials not provided.")).
Proof.
  intros Hi. split.
  - intros app. unfold create_app, configure_firebase. cbv zeta.
    rewrite Hi. unfold mbind, result_bind, mret, result_ret.
    destruct (configure_plaid s); [|done].
    destruct (truthy_str (environ s !! "FIREBASE_SERVICE_ACCOUNT_JSON"));
      [by left|].
    destruct (truthy_str (environ s !! "FIREBASE_SERVICE_ACCOUNT_FILE")); [|done].
    destruct (path_exists s _); [|done]. intros _. by right.
  - intros host Hp Hjson Hfile.
    unfold create_app, configure_firebase. cbv zeta.
    rewrite Hp, Hi. unfold mbind, result_bind, mret, result_ret.
    by rewrite Hjson, Hfile.
Qed.

Lemma firebase_credentials_required_witness :
  create_app (Cases.startup true
                {[ "FIREBASE_SERVICE_ACCOUNT_FILE" := "/tmp/missing.json" ]}) =
    Raise (Exn "RuntimeError"
             "Firebase service account credentials not provided.").
Proof.
  apply (proj2 (firebase_credentials_required
                  (Cases.startup true
                     {[ "FIREBASE_SERVICE_ACCOUNT_FILE" := "/tmp/missing.json" ]})
                  eq_refl) (Some Sandbox));
    vm_compute; reflexivity.
Defined.

(** X23: an app whose SDK imports failed still starts, whatever the
    environment, and every endpoint that needs an SDK then answers 500
    without calling anything: create-checkout-session, the webhook, both
    Plaid endpoints and transactions, for every request. *)
Theorem app_without_sdks s :
  sdks_imported s = false →
  ∃ app,
    create_app s = Ok app ∧
    ∀ env req w,
      create_checkout_session (app_config s app) env req w =
        (Ok (jsonify (error_body "Stripe SDK not installed") 500), w) ∧
      stripe_webhook (app_config s app) env req w =
        (Ok {| resp_body := Empty; resp_status := 500 |}, w) ∧
      plaid_create_link_token (app_config s app) env req w =
        (Ok (jsonify (error_body "Plaid SDK not installed") 500), w) ∧
      plaid_exchange_public_token (app_config s app) env req w =
        (Ok (jsonify (error_body "Plaid or Firestore not configured") 500), w) ∧
      list_transactions (app_config s app) env req w =
        (Ok (jsonify (error_body "Firestore not configured") 500), w).
Proof.
  intros Hi. eexists. split.
  - unfold create_app, configure_plaid, configure_firebase. cbv zeta.
    rewrite Hi. reflexivity.
  - intros env req w. by repeat split.
Qed.

Lemma app_without_sdks_witness :
  ∃ app,
    create_app (Cases.startup false {[ "PLAID_ENV" := "staging" ]}) = Ok app ∧
    list_transactions
      (app_config (Cases.startup false {[ "PLAID_ENV" := "staging" ]}) app)
      (Scenario.env_at 100 "doc-a" true)
      (Scenario.json_request (Some "Bearer tok-u1") VNone) Scenario.w0 =
      (Ok (jsonify (error_body "Firestore not configured") 500), Scenario.w0).
Proof.
  destruct (app_without_sdks
              (Cases.startup false {[ "PLAID_ENV" := "staging" ]}) eq_refl)
    as (app & Happ & Hall).
  exists app. split; [exact Happ|].
  apply (Hall (Scenario.env_at 100 "doc-a" true)
           (Scenario.json_request (Some "Bearer tok-u1") VNone) Scenario.w0).
Defined.
